(** * ClientSession: the notebook client-session state machine

    A shallow embedding of [src/sql/parts/notebook/models/clientSession.ts].

    The class is a set of [async] methods over one mutable object that talks
    to external collaborators (server manager, session manager, session,
    kernel, notification service).  The embedding is:

    - the object's fields are a record [State], threaded explicitly;
    - an [async] method is a computation [Async A]: it takes the state and
      returns the settled outcome of its promise ([Fulfilled] or [Rejected])
      together with the state it leaves behind.  State changes made before
      an exception survive it, as in JavaScript;
    - every answer of a collaborator is read from a [World], so that a
      statement quantified over [World] speaks about every outcome of the
      backend;
    - the two [Deferred] gates live in a store and are named by their
      address, so that a gate allocated by [changeKernel] is a new object;
    - the calls made to collaborators, the [resolve()] calls on gates and
      the fired events are appended to a log ([trace]), so that "how many"
      and "in which order" can be stated.  The log is not a field of the
      class; the call and the completion of a kernel-config action are
      logged around its [await].

    Each method runs to completion without another method of the same object
    interleaving at its [await] points (the single-owner discipline of the
    class), and a promise that is awaited settles. *)

From Stdlib Require Import ZArith Ascii String.
From stdpp Require Import gmap strings list fin_maps.

Local Open Scope string_scope.
Local Open Scope list_scope.

(* ===================================================================== *)
(** ** JavaScript values the class handles *)
(* ===================================================================== *)

(** [err.response.status] of a rejected backend request. *)
Record Response := { status : Z }.

(** A thrown value: an [Error] with a message and, for a failed HTTP
    request, the response attached by the transport. *)
Record JsError := {
  message  : string;
  response : option Response
}.

(** [new Error(msg)]. *)
Definition Error (msg : string) : JsError :=
  {| message := msg; response := None |}.

(** The exception of a property access on [undefined]. *)
Definition TypeError (what : string) : JsError :=
  Error ("Cannot read property '" +:+ what +:+ "' of undefined").

(** The settled state of a promise, and the outcome of an [async] call. *)
Inductive Completion (A : Type) : Type :=
| Fulfilled (a : A)
| Rejected (err : JsError).
Arguments Fulfilled {A} a.
Arguments Rejected {A} err.

(** [nb.IKernel]: the members the class reads, [name], [isReady] and
    [ready] (the settlement of the promise). *)
Record IKernel := {
  kernel_name    : string;
  kernel_isReady : bool;
  kernel_ready   : Completion unit
}.

(** [nb.ISession]: [id], [status], [kernel] (possibly undefined) and
    [defaultKernelLoaded], which the class writes. *)
Record ISession := {
  session_id          : string;
  session_status      : string;
  session_kernel      : option IKernel;
  defaultKernelLoaded : option bool
}.

Definition set_defaultKernelLoaded (b : bool) (s : ISession) : ISession :=
  {| session_id := session_id s; session_status := session_status s;
     session_kernel := session_kernel s; defaultKernelLoaded := Some b |}.

(** [nb.IKernelSpec]: [name]. *)
Record IKernelSpec := { spec_name : string }.

(** [IKernelPreference]: [name?] and [shouldStart?] are the members read;
    an absent [shouldStart] is falsy. *)
Record IKernelPreference := {
  pref_name        : option string;
  pref_shouldStart : bool
}.

(** [NotebookConnection]; [connectionProfile_id] is
    [connectionProfile.id]. *)
Record NotebookConnection := {
  host     : string;
  knoxport : string;
  user     : string;
  password : string;
  connectionProfile_id : string
}.

(** The argument of [sessionManager.startNew]. *)
Record ISessionOptions := {
  opt_path       : option string;
  opt_kernelName : option string
}.

(** [IClientSessionOptions]: the constructor reads [options.path]. *)
Record IClientSessionOptions := { options_path : option string }.

(** An entry of [_kernelConfigActions].  The class itself only ever pushes
    the closure over [runTasksBeforeSessionStart]; [RegisteredAction n]
    stands for any other callback of type
    [(kernelName: string) => Promise<any>], answered by the [World]. *)
Inductive KernelConfigAction :=
| DefaultAction
| RegisteredAction (n : nat).

(* ===================================================================== *)
(** ** String helpers of the JavaScript runtime *)
(* ===================================================================== *)

(** A JavaScript string is held as the bytes of its UTF-8 text.  The class
    concatenates strings, compares them, tests them for emptiness and
    searches an ASCII word in them, all of which read the same on the UTF-8
    text.  It also lower-cases kernel names: [String.prototype.toLowerCase]
    follows the Unicode case mappings (it sends U+212A KELVIN SIGN to "k",
    for one), which are data of the runtime; it is taken from a
    [JsRuntime], a parameter of the class below. *)

Module JsString.

(** [s.indexOf(needle)]: the first position, or [-1].  The class only
    compares the result with [-1]. *)
Fixpoint indexOf (needle s : string) : Z :=
  if String.prefix needle s then 0%Z
  else match s with
       | EmptyString => (-1)%Z
       | String _ rest =>
           let r := indexOf needle rest in
           if (r =? -1)%Z then (-1)%Z else (r + 1)%Z
       end.

(** Truthiness of a string: the empty string is falsy. *)
Definition truthy (s : string) : bool :=
  match s with EmptyString => false | _ => true end.

(** Whether [needle] occurs in [s], stated independently of [indexOf]. *)
Definition occurs_in (needle s : string) : Prop :=
  exists pre post, s = pre +:+ needle +:+ post.

End JsString.

(** What the class uses of the runtime besides the above: [s.toLowerCase()],
    of which all that is needed is that the empty string has no letter to
    change. *)
Record JsRuntime := {
  toLowerCase : string -> string;
  toLowerCase_empty : toLowerCase "" = ""
}.

(* ===================================================================== *)
(** ** Helpers imported by the class whose sources are elsewhere *)
(* ===================================================================== *)

(** Modelled from the spec: [nls.localize(key, message, arg)] is not among
    the sources; the messages the spec quotes are the default (English)
    ones, so the call is taken to return [message] with the placeholder
    [{0}] filled by the argument when there is one. *)
Fixpoint format0 (msg : string) (arg : option string) : string :=
  match msg with
  | String "{" (String "0" (String "}" rest)) =>
      match arg with
      | Some a => a +:+ format0 rest arg
      | None => "{0}" +:+ format0 rest arg
      end
  | String c rest => String c (format0 rest arg)
  | EmptyString => EmptyString
  end.

Definition localize (key msg : string) (arg : option string) : string :=
  format0 msg arg.

(** Modelled from the spec: [notebookUtils.getErrorMessage] is not among the
    sources; the spec says the caught exception is "stored as
    [errorMessage]", so the helper is taken to return the error's message. *)
Definition getErrorMessage (err : JsError) : string := message err.

(* ===================================================================== *)
(** ** Gates, observable events, and the state of the object *)
(* ===================================================================== *)

(** A [Deferred] is allocated in a store and named by its address, so that
    a waiter holding an old gate and the object holding a new one do not
    alias. *)
Abbreviation gate := nat.

Inductive GateState := Pending | Resolved.

Inductive Event :=
| ServerStartRequested
| ServerStopRequested
| StartNewRequested (o : ISessionOptions)
| SessionShutdownRequested (id : string)
| ChangeKernelRequested (o : IKernelSpec)
| Warned (msg : string)
| ExecuteRequested (code : string) (silent : bool)
| ActionInvoked (a : KernelConfigAction) (kernelName : option string)
| ActionCompleted (a : KernelConfigAction)
| GateResolveCalled (g : gate)
| StatusChangedFired (s : ISession)
| KernelChangedFired (oldValue newValue : option IKernel).

Record State := {
  _path                  : option string;
  _isReady               : bool;
  _ready                 : gate;
  _kernelChangeCompleted : gate;
  _kernelPreference      : option IKernelPreference;
  _errorMessage          : option string;
  _serverLoadFinished    : option (Completion unit);
  _session               : option ISession;
  isServerStarted        : option bool;
  _connection            : option NotebookConnection;
  _kernelConfigActions   : list KernelConfigAction;
  (* the store of gates and the log of observable events *)
  gates                  : gmap nat GateState;
  trace                  : list Event
}.

(** The collaborators as they answer during one method call. *)
Record ServerManager := {
  sm_isStarted             : bool;          (* [isStarted] when first read *)
  sm_startServer           : Completion unit;
  sm_isStarted_afterStart  : bool;          (* [isStarted] after the await *)
  sm_stopServer            : Completion unit
}.

Record World := {
  serverManager          : option ServerManager;
  sessionManager_isReady : bool;
  sessionManager_ready   : Completion unit;
  (* the [n]-th [startNew] of a session start: 0 first, 1 the fallback *)
  sessionManager_startNew : nat -> ISessionOptions -> Completion ISession;
  (* [session.changeKernel(spec)]: its outcome and the session object as
     the backend leaves it *)
  session_changeKernel   : ISession -> IKernelSpec -> Completion IKernel * ISession;
  (* [kernel.requestExecute(...).done] *)
  kernel_requestExecute  : IKernel -> string -> bool -> Completion unit;
  registered_action      : nat -> option string -> Completion unit
}.

(** Field updates. *)
Definition set_isReady (b : bool) (st : State) : State :=
  {| _path := _path st; _isReady := b; _ready := _ready st;
     _kernelChangeCompleted := _kernelChangeCompleted st;
     _kernelPreference := _kernelPreference st; _errorMessage := _errorMessage st;
     _serverLoadFinished := _serverLoadFinished st; _session := _session st;
     isServerStarted := isServerStarted st; _connection := _connection st;
     _kernelConfigActions := _kernelConfigActions st;
     gates := gates st; trace := trace st |}.

Definition set_kernelChangeCompleted (g : gate) (st : State) : State :=
  {| _path := _path st; _isReady := _isReady st; _ready := _ready st;
     _kernelChangeCompleted := g;
     _kernelPreference := _kernelPreference st; _errorMessage := _errorMessage st;
     _serverLoadFinished := _serverLoadFinished st; _session := _session st;
     isServerStarted := isServerStarted st; _connection := _connection st;
     _kernelConfigActions := _kernelConfigActions st;
     gates := gates st; trace := trace st |}.

Definition set_kernelPreference (p : option IKernelPreference) (st : State) : State :=
  {| _path := _path st; _isReady := _isReady st; _ready := _ready st;
     _kernelChangeCompleted := _kernelChangeCompleted st;
     _kernelPreference := p; _errorMessage := _errorMessage st;
     _serverLoadFinished := _serverLoadFinished st; _session := _session st;
     isServerStarted := isServerStarted st; _connection := _connection st;
     _kernelConfigActions := _kernelConfigActions st;
     gates := gates st; trace := trace st |}.

Definition set_errorMessage (m : option string) (st : State) : State :=
  {| _path := _path st; _isReady := _isReady st; _ready := _ready st;
     _kernelChangeCompleted := _kernelChangeCompleted st;
     _kernelPreference := _kernelPreference st; _errorMessage := m;
     _serverLoadFinished := _serverLoadFinished st; _session := _session st;
     isServerStarted := isServerStarted st; _connection := _connection st;
     _kernelConfigActions := _kernelConfigActions st;
     gates := gates st; trace := trace st |}.

Definition set_serverLoadFinished (p : option (Completion unit)) (st : State) : State :=
  {| _path := _path st; _isReady := _isReady st; _ready := _ready st;
     _kernelChangeCompleted := _kernelChangeCompleted st;
     _kernelPreference := _kernelPreference st; _errorMessage := _errorMessage st;
     _serverLoadFinished := p; _session := _session st;
     isServerStarted := isServerStarted st; _connection := _connection st;
     _kernelConfigActions := _kernelConfigActions st;
     gates := gates st; trace := trace st |}.

Definition set_session (s : option ISession) (st : State) : State :=
  {| _path := _path st; _isReady := _isReady st; _ready := _ready st;
     _kernelChangeCompleted := _kernelChangeCompleted st;
     _kernelPreference := _kernelPreference st; _errorMessage := _errorMessage st;
     _serverLoadFinished := _serverLoadFinished st; _session := s;
     isServerStarted := isServerStarted st; _connection := _connection st;
     _kernelConfigActions := _kernelConfigActions st;
     gates := gates st; trace := trace st |}.

Definition set_isServerStarted (b : option bool) (st : State) : State :=
  {| _path := _path st; _isReady := _isReady st; _ready := _ready st;
     _kernelChangeCompleted := _kernelChangeCompleted st;
     _kernelPreference := _kernelPreference st; _errorMessage := _errorMessage st;
     _serverLoadFinished := _serverLoadFinished st; _session := _session st;
     isServerStarted := b; _connection := _connection st;
     _kernelConfigActions := _kernelConfigActions st;
     gates := gates st; trace := trace st |}.

Definition set_connection (c : option NotebookConnection) (st : State) : State :=
  {| _path := _path st; _isReady := _isReady st; _ready := _ready st;
     _kernelChangeCompleted := _kernelChangeCompleted st;
     _kernelPreference := _kernelPreference st; _errorMessage := _errorMessage st;
     _serverLoadFinished := _serverLoadFinished st; _session := _session st;
     isServerStarted := isServerStarted st; _connection := c;
     _kernelConfigActions := _kernelConfigActions st;
     gates := gates st; trace := trace st |}.

Definition set_kernelConfigActions (l : list KernelConfigAction) (st : State) : State :=
  {| _path := _path st; _isReady := _isReady st; _ready := _ready st;
     _kernelChangeCompleted := _kernelChangeCompleted st;
     _kernelPreference := _kernelPreference st; _errorMessage := _errorMessage st;
     _serverLoadFinished := _serverLoadFinished st; _session := _session st;
     isServerStarted := isServerStarted st; _connection := _connection st;
     _kernelConfigActions := l;
     gates := gates st; trace := trace st |}.

Definition set_gates (gs : gmap nat GateState) (st : State) : State :=
  {| _path := _path st; _isReady := _isReady st; _ready := _ready st;
     _kernelChangeCompleted := _kernelChangeCompleted st;
     _kernelPreference := _kernelPreference st; _errorMessage := _errorMessage st;
     _serverLoadFinished := _serverLoadFinished st; _session := _session st;
     isServerStarted := isServerStarted st; _connection := _connection st;
     _kernelConfigActions := _kernelConfigActions st;
     gates := gs; trace := trace st |}.

Definition set_trace (t : list Event) (st : State) : State :=
  {| _path := _path st; _isReady := _isReady st; _ready := _ready st;
     _kernelChangeCompleted := _kernelChangeCompleted st;
     _kernelPreference := _kernelPreference st; _errorMessage := _errorMessage st;
     _serverLoadFinished := _serverLoadFinished st; _session := _session st;
     isServerStarted := isServerStarted st; _connection := _connection st;
     _kernelConfigActions := _kernelConfigActions st;
     gates := gates st; trace := t |}.

(* ===================================================================== *)
(** ** The monad of [async] methods *)
(* ===================================================================== *)

Definition Async (A : Type) : Type := State -> Completion A * State.

Definition ret {A} (a : A) : Async A := fun st => (Fulfilled a, st).

(** [throw e]. *)
Definition throw {A} (e : JsError) : Async A := fun st => (Rejected e, st).

Definition bind {A B} (m : Async A) (k : A -> Async B) : Async B :=
  fun st =>
    match m st with
    | (Fulfilled a, st') => k a st'
    | (Rejected e, st') => (Rejected e, st')
    end.

(** [try { body } catch (err) { handler }]. *)
Definition try_catch {A} (body : Async A) (handler : JsError -> Async A) : Async A :=
  fun st =>
    match body st with
    | (Fulfilled a, st') => (Fulfilled a, st')
    | (Rejected e, st') => handler e st'
    end.

(** [await p] on a promise whose settlement is known. *)
Definition await {A} (p : Completion A) : Async A := fun st => (p, st).

(** Calling an [async] function without awaiting it: the promise it
    returns, here already settled. *)
Definition promise_of {A} (m : Async A) : Async (Completion A) :=
  fun st => let '(c, st') := m st in (Fulfilled c, st').

Definition gets {A} (f : State -> A) : Async A := fun st => (Fulfilled (f st), st).

Definition modify (f : State -> State) : Async unit := fun st => (Fulfilled tt, f st).

(** Append one observable event to the log. *)
Definition emit (e : Event) : Async unit :=
  modify (fun st => set_trace (trace st ++ [e]) st).

(** [x.member] where [x] may be [undefined]. *)
Definition deref {A} (what : string) (x : option A) : Async A :=
  match x with
  | Some a => ret a
  | None => throw (TypeError what)
  end.

Declare Scope async_scope.
Delimit Scope async_scope with async.
Notation "x <- m ;; k" := (bind m (fun x => k))
  (at level 100, m at next level, right associativity) : async_scope.
Notation "m ;; k" := (bind m (fun _ => k))
  (at level 100, right associativity) : async_scope.
Local Open Scope async_scope.

(** Modelled from the spec: [Deferred] ([sql/base/common/promise]) is not
    among the sources.  Spec 4.2: a gate is constructed unresolved;
    [resolve()] is idempotent; a resolved gate never re-blocks. *)
Definition new_Deferred : Async gate :=
  fun st =>
    let g := fresh (dom (gates st)) in
    (Fulfilled g, set_gates (<[g := Pending]> (gates st)) st).

Definition Deferred_resolve (g : gate) : Async unit :=
  modify (fun st => set_gates (<[g := Resolved]> (gates st)) st) ;;
  emit (GateResolveCalled g).

(** Whether the promise of gate [g] has resolved. *)
Definition resolved (st : State) (g : gate) : Prop := gates st !! g = Some Resolved.

(* ===================================================================== *)
(** ** The class *)
(* ===================================================================== *)

Section ClientSession.

(** Two library helpers the bootstrap command is built with have their
    sources elsewhere and are taken as parameters:
    [sparkUtils.getLivyUrl(host, knoxport)] and the rendering
    [URI.parse(url).toString()]. *)
Variable getLivyUrl : string -> string -> string.
Variable URI_parse_toString : string -> string.

(** The JavaScript runtime the class runs on. *)
Variable runtime : JsRuntime.

(** [constructor(options)] (lines 55-61): the two gates are allocated in an
    empty store. *)
Definition new_ClientSession (options : IClientSessionOptions) : State :=
  let r := fresh (dom (∅ : gmap nat GateState)) in
  let gs := <[r := Pending]> (∅ : gmap nat GateState) in
  let k := fresh (dom gs) in
  {| _path := options_path options;
     _isReady := false;
     _ready := r;
     _kernelChangeCompleted := k;
     _kernelPreference := None;
     _errorMessage := None;
     _serverLoadFinished := None;
     _session := None;
     isServerStarted := None;
     _connection := None;
     _kernelConfigActions := [];
     gates := <[k := Pending]> gs;
     trace := [] |}.

(** *** Accessors *)

(** [get kernel()] (lines 169-171). *)
Definition kernel (st : State) : option IKernel :=
  match _session st with
  | Some s => session_kernel s
  | None => None
  end.

Definition isReady (st : State) : bool := _isReady st.

Definition errorMessage (st : State) : option string := _errorMessage st.

(** [get isInErrorState()]: [!!this._errorMessage]. *)
Definition isInErrorState (st : State) : bool :=
  match _errorMessage st with
  | Some m => JsString.truthy m
  | None => false
  end.

(** [get status()] (lines 181-186). *)
Definition get_status (st : State) : string :=
  if negb (isReady st) then "starting"
  else match _session st with
       | Some s => session_status s
       | None => "dead"
       end.

(** [isSparkKernel(kernelName)] (lines 289-291), as the truth value its
    caller tests. *)
Definition isSparkKernel (kernelName : option string) : bool :=
  match kernelName with
  | Some n =>
      JsString.truthy n
      && (-1 <? JsString.indexOf "spark" (toLowerCase runtime n))%Z
  | None => false
  end.

(** The text of the bootstrap command (lines 266-268). *)
Definition doNotCallChangeEndpointParams (c : NotebookConnection) : string :=
  let server := URI_parse_toString (getLivyUrl (host c) (knoxport c)) in
  "%_do_not_call_change_endpoint --username=" +:+ user c
    +:+ " --password=" +:+ password c
    +:+ " --server=" +:+ server
    +:+ " --auth=Basic_Access".

(** *** Kernel-config actions *)

(** [runTasksBeforeSessionStart(kernelName)] (lines 258-274). *)
Definition runTasksBeforeSessionStart (kernelName : option string) (w : World)
  : Async unit :=
  session <- gets _session ;;
  connection <- gets _connection ;;
  match session, connection with
  | Some s, Some c =>
      if isSparkKernel kernelName then
        let code := doNotCallChangeEndpointParams c in
        k <- deref "requestExecute" (session_kernel s) ;;
        emit (ExecuteRequested code true) ;;
        await (kernel_requestExecute w k code true)
      else ret tt
  | _, _ => ret tt
  end.

(** One entry of [_kernelConfigActions] applied to a kernel name. *)
Definition startAction (a : KernelConfigAction) (kernelName : option string)
    (w : World) : Async unit :=
  match a with
  | DefaultAction => runTasksBeforeSessionStart kernelName w
  | RegisteredAction n => await (registered_action w n kernelName)
  end.

(** The loop of [runKernelConfigActions]; the call of an action and the
    return of its [await] are logged around it. *)
Fixpoint run_actions (acts : list KernelConfigAction)
    (kernelName : option string) (w : World) : Async unit :=
  match acts with
  | [] => ret tt
  | a :: rest =>
      emit (ActionInvoked a kernelName) ;;
      startAction a kernelName w ;;
      emit (ActionCompleted a) ;;
      run_actions rest kernelName w
  end.

(** [runKernelConfigActions(kernelName)] (lines 131-135). *)
Definition runKernelConfigActions (kernelName : option string) (w : World)
  : Async unit :=
  acts <- gets _kernelConfigActions ;;
  run_actions acts kernelName w.

(** *** Start-up *)

(** [startServer()] (lines 79-90). *)
Definition startServer (w : World) : Async unit :=
  match serverManager w with
  | Some sm =>
      if negb (sm_isStarted sm) then
        emit ServerStartRequested ;;
        await (sm_startServer sm) ;;
        (if negb (sm_isStarted_afterStart sm) then
           throw (Error (localize "ServerNotStarted"
                           "Server did not start for unknown reason" None))
         else ret tt) ;;
        modify (set_isServerStarted (Some (sm_isStarted_afterStart sm)))
      else modify (set_isServerStarted (Some true))
  | None => modify (set_isServerStarted (Some true))
  end.

(** The test [err && err.response && err.response.status === 501]
    (line 115). *)
Definition status_is_501 (err : JsError) : bool :=
  match response err with
  | Some r => (status r =? 501)%Z
  | None => false
  end.

(** [startSessionInstance(kernelName)] (lines 104-129). *)
Definition startSessionInstance (kernelName : option string) (w : World)
  : Async unit :=
  path <- gets _path ;;
  session <-
    try_catch
      (emit (StartNewRequested {| opt_path := path; opt_kernelName := kernelName |}) ;;
       s <- await (sessionManager_startNew w 0
                     {| opt_path := path; opt_kernelName := kernelName |}) ;;
       ret (set_defaultKernelLoaded true s))
      (fun err =>
         s <- (if status_is_501 err then
                 emit (Warned (localize "sparkKernelRequiresConnection"
                         "Kernel {0} was not found. The default kernel will be used instead."
                         kernelName)) ;;
                 emit (StartNewRequested {| opt_path := path; opt_kernelName := None |}) ;;
                 await (sessionManager_startNew w 1
                          {| opt_path := path; opt_kernelName := None |})
               else throw err) ;;
         ret (set_defaultKernelLoaded false s)) ;;
  modify (set_session (Some session)) ;;
  runKernelConfigActions kernelName w ;;
  emit (StatusChangedFired session).

(** [initializeSession()] (lines 92-102). *)
Definition initializeSession (w : World) : Async unit :=
  loaded <- gets _serverLoadFinished ;;
  match loaded with Some p => await p | None => ret tt end ;;
  started <- gets isServerStarted ;;
  if bool_decide (started = Some true) then
    (if negb (sessionManager_isReady w) then await (sessionManager_ready w)
     else ret tt) ;;
    preference <- gets _kernelPreference ;;
    match preference with
    | Some p =>
        if pref_shouldStart p then startSessionInstance (pref_name p) w
        else ret tt
    | None => ret tt
    end
  else ret tt.

(** [initialize(connection?)] (lines 63-77). *)
Definition initialize (connection : option NotebookConnection) (w : World)
  : Async unit :=
  try_catch
    (modify (fun st =>
       set_kernelConfigActions (_kernelConfigActions st ++ [DefaultAction]) st) ;;
     modify (set_connection connection) ;;
     p <- promise_of (startServer w) ;;
     modify (set_serverLoadFinished (Some p)) ;;
     await p ;;
     initializeSession w)
    (fun err => modify (set_errorMessage (Some (getErrorMessage err)))) ;;
  (* Always resolving for now. It's up to callers to check for error case *)
  modify (set_isReady true) ;;
  r <- gets _ready ;;
  Deferred_resolve r ;;
  k <- gets _kernelChangeCompleted ;;
  Deferred_resolve k.

(** *** Kernel change *)

(** [doChangeKernel(options)] (lines 247-256). *)
Definition doChangeKernel (options : IKernelSpec) (w : World)
  : Async (option IKernel) :=
  session <- gets _session ;;
  match session with
  | Some s =>
      emit (ChangeKernelRequested options) ;;
      let '(outcome, s') := session_changeKernel w s options in
      modify (set_session (Some s')) ;;
      k <- await outcome ;;
      runKernelConfigActions (Some (kernel_name k)) w ;;
      ret (Some k)
  | None =>
      startSessionInstance (Some (spec_name options)) w ;;
      gets kernel
  end.

(** [changeKernel(options)] (lines 217-241). *)
Definition changeKernel (options : IKernelSpec) (w : World) : Async IKernel :=
  g <- new_Deferred ;;
  modify (set_kernelChangeCompleted g) ;;
  modify (set_isReady false) ;;
  oldKernel <- gets kernel ;;
  kernel' <- doChangeKernel options w ;;
  try_catch
    (k <- deref "ready" kernel' ;;
     await (kernel_ready k))
    (fun error =>
       (* Cleanup some state before re-throwing *)
       k <- deref "isReady" kernel' ;;
       modify (set_isReady (kernel_isReady k)) ;;
       c <- gets _kernelChangeCompleted ;;
       Deferred_resolve c ;;
       throw error) ;;
  session <- gets _session ;;
  newKernel <- match session with
               | Some _ => ret kernel'
               | None => throw (TypeError "kernel")
               end ;;
  k <- deref "isReady" kernel' ;;
  modify (set_isReady (kernel_isReady k)) ;;
  (* Send resolution events to listeners *)
  c <- gets _kernelChangeCompleted ;;
  Deferred_resolve c ;;
  emit (KernelChangedFired oldKernel newKernel) ;;
  ret k.

(** *** Connection update and shutdown *)

(** [updateConnection(connection)] (lines 276-287). *)
Definition updateConnection (connection : NotebookConnection) (w : World)
  : Async unit :=
  k <- gets kernel ;;
  match k with
  | None => ret tt
  | Some _ =>
      modify (fun st =>
        set_connection
          (if bool_decide (connectionProfile_id connection <> "-1")
           then Some connection else _connection st) st) ;;
      k <- gets kernel ;;
      match k with
      | Some k =>
          if JsString.truthy (kernel_name k)
          then runKernelConfigActions (Some (kernel_name k)) w
          else ret tt
      | None => ret tt
      end
  end.

(** [shutdown()] (lines 298-307); [sessionManager.shutdown] is called and
    not awaited. *)
Definition shutdown (w : World) : Async unit :=
  session <- gets _session ;;
  match session with
  | Some s =>
      if JsString.truthy (session_id s)
      then emit (SessionShutdownRequested (session_id s))
      else ret tt
  | None => ret tt
  end ;;
  match serverManager w with
  | Some sm => emit ServerStopRequested ;; await (sm_stopServer sm)
  | None => ret tt
  end.

(** [set kernelPreference(value)] (lines 199-201). *)
Definition kernelPreference_set (value : option IKernelPreference) : Async unit :=
  modify (set_kernelPreference value).

(** *** The rest of the interface *)

(** [dispose()] (lines 137-139): "No-op for now". *)
Definition dispose : Async unit := ret tt.

(** [selectKernel()], [restart()], [setPath(path)], [setName(name)] and
    [setType(type)] (lines 312-358) all consist of
    [throw new Error('Not implemented')].  They are not [async]: the
    exception is raised by the call itself, no promise is returned;
    [Rejected] stands here for that abrupt completion. *)
Definition not_implemented {A} : Async A := throw (Error "Not implemented").

Definition selectKernel : Async unit := not_implemented.
Definition restart : Async bool := not_implemented.
Definition setPath (path : string) : Async unit := not_implemented.
Definition setName (name : string) : Async unit := not_implemented.
Definition setType (type : string) : Async unit := not_implemented.

(** *** [NotebookInputModel] ([notebookInput.ts], lines 23-66)

    The model behind a notebook editor input: a dirty flag with a change
    event, and an optional save handler.  [onDidChangeDirty_fired] counts
    the calls of [this._onDidChangeDirty.fire()]; it is not a field of the
    class. *)
Record NotebookInputModel := {
  handle      : nat;
  _isTrusted  : bool;
  _providerId : option string;
  dirty       : bool;
  saveHandler : option (nat -> Completion bool);
  onDidChangeDirty_fired : nat
}.

(** [constructor(notebookUri, handle, _isTrusted = false, saveHandler?)]. *)
Definition new_NotebookInputModel (handle : nat) (isTrusted : option bool)
    (saveHandler : option (nat -> Completion bool)) : NotebookInputModel :=
  {| handle := handle;
     _isTrusted := match isTrusted with Some b => b | None => false end;
     _providerId := None;
     dirty := false;
     saveHandler := saveHandler;
     onDidChangeDirty_fired := 0 |}.

(** [get isDirty()]. *)
Definition isDirty (m : NotebookInputModel) : bool := dirty m.

(** [setDirty(dirty)] (lines 51-58). *)
Definition setDirty (d : bool) (m : NotebookInputModel) : NotebookInputModel :=
  if bool_decide (dirty m = d) then m
  else {| handle := handle m; _isTrusted := _isTrusted m;
          _providerId := _providerId m;
          dirty := d;
          saveHandler := saveHandler m;
          onDidChangeDirty_fired := S (onDidChangeDirty_fired m) |}.

(** [save()] (lines 60-65): the promise it returns. *)
Definition save (m : NotebookInputModel) : Completion bool :=
  match saveHandler m with
  | Some h => h (handle m)
  | None => Fulfilled true
  end.

(* ===================================================================== *)
(** ** Reading the log *)
(* ===================================================================== *)

Definition is_resolve_of (g : gate) (e : Event) : bool :=
  match e with
  | GateResolveCalled g' => bool_decide (g' = g)
  | _ => false
  end.

(** How many times [resolve()] was called on gate [g] in a log. *)
Definition resolve_calls (g : gate) (t : list Event) : nat :=
  length (List.filter (is_resolve_of g) t).

Definition is_execute (e : Event) : bool :=
  match e with
  | ExecuteRequested _ _ => true
  | _ => false
  end.

(** The execute requests of a log, in order. *)
Definition execute_requests (t : list Event) : list Event :=
  List.filter is_execute t.

Definition is_warning (e : Event) : bool :=
  match e with
  | Warned _ => true
  | _ => false
  end.

Definition is_action_event (e : Event) : bool :=
  match e with
  | ActionInvoked _ _ | ActionCompleted _ => true
  | _ => false
  end.

(** The events a call appended: the log only grows, so they are what lies
    beyond the old length. *)
Definition new_events (st st' : State) : list Event :=
  drop (length (trace st)) (trace st').

(** [logged evs st]: [st] with [evs] appended to its log. *)
Definition logged (evs : list Event) (st : State) : State :=
  set_trace (trace st ++ evs) st.

Definition is_fulfilled {A} (c : Completion A) : bool :=
  match c with
  | Fulfilled _ => true
  | Rejected _ => false
  end.

(** [sequential kernelName completed acts log]: [log] is the log of running
    the actions [acts] one after the other from first to last with
    [kernelName]: the call of an action, what the action itself does (no
    other action is called or completes meanwhile), its completion, and only
    then the next action.  With [completed] false the run stopped at an
    action that rejected, and no later action was called. *)
Inductive sequential (kernelName : option string)
  : bool -> list KernelConfigAction -> list Event -> Prop :=
| seq_done : sequential kernelName true [] []
| seq_action a rest body completed log :
    Forall (fun e => is_action_event e = false) body ->
    sequential kernelName completed rest log ->
    sequential kernelName completed (a :: rest)
      (ActionInvoked a kernelName :: body ++ ActionCompleted a :: log)
| seq_rejected a rest body :
    Forall (fun e => is_action_event e = false) body ->
    sequential kernelName false (a :: rest) (ActionInvoked a kernelName :: body).

(** What one entry of [_kernelConfigActions] does when it is called with
    [kernelName] on an object holding [session] and [connection]: the
    events the entry logs itself, and how the promise it returns settles.
    A registered callback settles as the backend says; the default entry
    issues the bootstrap request and settles as the request does, or does
    nothing and fulfils. *)
Definition action_effect (w : World) (session : option ISession)
    (connection : option NotebookConnection) (kernelName : option string)
    (a : KernelConfigAction) : list Event * Completion unit :=
  match a with
  | RegisteredAction m => ([], registered_action w m kernelName)
  | DefaultAction =>
      match session, connection with
      | Some s, Some c =>
          if isSparkKernel kernelName then
            match session_kernel s with
            | Some k =>
                let code := doNotCallChangeEndpointParams c in
                ([ExecuteRequested code true], kernel_requestExecute w k code true)
            | None => ([], Rejected (TypeError "requestExecute"))
            end
          else ([], Fulfilled tt)
      | _, _ => ([], Fulfilled tt)
      end
  end.

(** [in_sequence kernelName effect acts]: the log and the outcome of the
    entries [acts] when each is called only after the promise of the one
    before it has fulfilled, from first to last: the call of an entry, what
    the entry does, its completion, then the next entry.  At the first
    entry whose promise rejects the run ends with that rejection; the
    entries after it are not called. *)
Fixpoint in_sequence (kernelName : option string)
    (effect : KernelConfigAction -> list Event * Completion unit)
    (acts : list KernelConfigAction) : list Event * Completion unit :=
  match acts with
  | [] => ([], Fulfilled tt)
  | a :: rest =>
      match effect a with
      | (body, Fulfilled _) =>
          let later := in_sequence kernelName effect rest in
          (ActionInvoked a kernelName :: body ++ ActionCompleted a :: later.1,
           later.2)
      | (body, Rejected err) => (ActionInvoked a kernelName :: body, Rejected err)
      end
  end.

(* ===================================================================== *)
(** ** Named parts of the methods *)
(* ===================================================================== *)

(** The sub-computations below are the source text of a method cut at a
    statement boundary; each is tied to its method by an equation proved by
    [reflexivity]. *)

(** The [try] block of [initialize]. *)
Definition initialize_body (connection : option NotebookConnection) (w : World)
  : Async unit :=
  modify (fun st =>
    set_kernelConfigActions (_kernelConfigActions st ++ [DefaultAction]) st) ;;
  modify (set_connection connection) ;;
  p <- promise_of (startServer w) ;;
  modify (set_serverLoadFinished (Some p)) ;;
  await p ;;
  initializeSession w.

(** The state in which [changeKernel] calls [doChangeKernel]: a fresh
    [_kernelChangeCompleted] gate, [_isReady] false. *)
Definition changeKernel_entry (st : State) : State :=
  let g := fresh (dom (gates st)) in
  set_isReady false
    (set_kernelChangeCompleted g (set_gates (<[g := Pending]> (gates st)) st)).

(** What [changeKernel] does once [doChangeKernel] has returned [kernel']. *)
Definition changeKernel_exit (oldKernel kernel' : option IKernel) : Async IKernel :=
  try_catch
    (k <- deref "ready" kernel' ;;
     await (kernel_ready k))
    (fun error =>
       k <- deref "isReady" kernel' ;;
       modify (set_isReady (kernel_isReady k)) ;;
       c <- gets _kernelChangeCompleted ;;
       Deferred_resolve c ;;
       throw error) ;;
  session <- gets _session ;;
  newKernel <- match session with
               | Some _ => ret kernel'
               | None => throw (TypeError "kernel")
               end ;;
  k <- deref "isReady" kernel' ;;
  modify (set_isReady (kernel_isReady k)) ;;
  c <- gets _kernelChangeCompleted ;;
  Deferred_resolve c ;;
  emit (KernelChangedFired oldKernel newKernel) ;;
  ret k.

(** The [try]/[catch] of [startSessionInstance]: the session it obtains. *)
Definition acquire_session (path kernelName : option string) (w : World)
  : Async ISession :=
  try_catch
    (emit (StartNewRequested {| opt_path := path; opt_kernelName := kernelName |}) ;;
     s <- await (sessionManager_startNew w 0
                   {| opt_path := path; opt_kernelName := kernelName |}) ;;
     ret (set_defaultKernelLoaded true s))
    (fun err =>
       s <- (if status_is_501 err then
               emit (Warned (localize "sparkKernelRequiresConnection"
                       "Kernel {0} was not found. The default kernel will be used instead."
                       kernelName)) ;;
               emit (StartNewRequested {| opt_path := path; opt_kernelName := None |}) ;;
               await (sessionManager_startNew w 1
                        {| opt_path := path; opt_kernelName := None |})
             else throw err) ;;
       ret (set_defaultKernelLoaded false s)).

(** The rest of [startSessionInstance], once it has a session. *)
Definition install_session (session : ISession) (kernelName : option string)
    (w : World) : Async unit :=
  modify (set_session (Some session)) ;;
  runKernelConfigActions kernelName w ;;
  emit (StatusChangedFired session).

(** What [updateConnection] does after it has written [_connection]. *)
Definition updateConnection_rerun (w : World) : Async unit :=
  k <- gets kernel ;;
  match k with
  | Some k =>
      if JsString.truthy (kernel_name k)
      then runKernelConfigActions (Some (kernel_name k)) w
      else ret tt
  | None => ret tt
  end.

(** A sequence of [updateConnection] calls, each against its own world:
    the outcomes, in order, and the final state. *)
Fixpoint updateConnection_all (calls : list (NotebookConnection * World))
    (st : State) : list (Completion unit) * State :=
  match calls with
  | [] => ([], st)
  | (connection, w) :: rest =>
      let '(c, st1) := updateConnection connection w st in
      let '(cs, st2) := updateConnection_all rest st1 in
      (c :: cs, st2)
  end.

(** The HTTP status code "Not Found". *)
Definition HTTP_NOT_FOUND : Z := 404.

(** The HTTP status code "Not Implemented", which the code tests for. *)
Definition HTTP_NOT_IMPLEMENTED : Z := 501.

(* ===================================================================== *)
(** ** Frames: what a computation leaves alone *)
(* ===================================================================== *)

(** [keeps R m]: whatever its outcome, [m] relates the state it is started
    in to the state it leaves. *)
Definition keeps {A} (R : relation State) (m : Async A) : Prop :=
  forall st, R st (m st).2.

(** [logs_only st st']: nothing but the log has changed, and no
    [resolve()] was logged. *)
Definition logs_only (st st' : State) : Prop :=
  exists d, st' = set_trace (trace st ++ d) st /\ forall g, resolve_calls g d = 0.

(** [quiet st st']: between [st] and [st'] no gate was allocated or
    resolved, and readiness, error message, connection, preference and the
    action list are as they were; the session, the server flags and the log
    may have moved on. *)
Record quiet (st st' : State) : Prop := {
  q_path    : _path st' = _path st;
  q_isReady : _isReady st' = _isReady st;
  q_ready   : _ready st' = _ready st;
  q_kcc     : _kernelChangeCompleted st' = _kernelChangeCompleted st;
  q_pref    : _kernelPreference st' = _kernelPreference st;
  q_err     : _errorMessage st' = _errorMessage st;
  q_conn    : _connection st' = _connection st;
  q_acts    : _kernelConfigActions st' = _kernelConfigActions st;
  q_gates   : gates st' = gates st;
  q_trace   : exists d, trace st' = trace st ++ d /\ forall g, resolve_calls g d = 0
}.

(** [calm st st']: readiness, error message and every gate are as they
    were; the connection and the action list may have been written. *)
Record calm (st st' : State) : Prop := {
  c_isReady : _isReady st' = _isReady st;
  c_ready   : _ready st' = _ready st;
  c_kcc     : _kernelChangeCompleted st' = _kernelChangeCompleted st;
  c_err     : _errorMessage st' = _errorMessage st;
  c_gates   : gates st' = gates st;
  c_trace   : exists d, trace st' = trace st ++ d /\ forall g, resolve_calls g d = 0
}.

(** [steady st st']: the object still holds the same two gates and no gate
    has left the store. *)
Record steady (st st' : State) : Prop := {
  s_ready : _ready st' = _ready st;
  s_kcc   : _kernelChangeCompleted st' = _kernelChangeCompleted st;
  s_dom   : dom (gates st) ⊆ dom (gates st')
}.

(* ===================================================================== *)
(** ** Reachable states *)
(* ===================================================================== *)

(** The public operations that change the object. *)
Inductive Operation :=
| Initialize (connection : option NotebookConnection)
| ChangeKernel (options : IKernelSpec)
| UpdateConnection (connection : NotebookConnection)
| Shutdown
| SetKernelPreference (value : option IKernelPreference).

(** The state an operation leaves, whatever its outcome. *)
Definition perform (op : Operation) (w : World) (st : State) : State :=
  match op with
  | Initialize connection => (initialize connection w st).2
  | ChangeKernel options => (changeKernel options w st).2
  | UpdateConnection connection => (updateConnection connection w st).2
  | Shutdown => (shutdown w st).2
  | SetKernelPreference value => (kernelPreference_set value st).2
  end.

(** States reached from the constructor by operations that [allowed]
    lets through, each against an arbitrary world. *)
Inductive reachable_by (allowed : Operation -> bool) : State -> Prop :=
| reach_new options : reachable_by allowed (new_ClientSession options)
| reach_step st op w :
    reachable_by allowed st -> allowed op = true ->
    reachable_by allowed (perform op w st).

Definition reachable : State -> Prop := reachable_by (fun _ => true).

Definition is_ChangeKernel (op : Operation) : bool :=
  match op with
  | ChangeKernel _ => true
  | _ => false
  end.

(** Operations other than [changeKernel]. *)
Definition not_ChangeKernel (op : Operation) : bool := negb (is_ChangeKernel op).

(** The two gates of the object are allocated and distinct. *)
Definition gates_wf (st : State) : Prop :=
  _ready st ∈ dom (gates st) /\ _ready st <> _kernelChangeCompleted st.

(* ===================================================================== *)
(** ** Concrete collaborators, to run the class on *)
(* ===================================================================== *)

Definition livy_url (h port : string) : string :=
  "https://" +:+ h +:+ ":" +:+ port +:+ "/gateway/default/livy/v1/".

Definition uri_as_is (url : string) : string := url.

(** Lower-casing of the letters A-Z, which is what [toLowerCase] does on a
    string of ASCII characters; the kernel names below are such strings. *)
Definition lower_ascii (c : ascii) : ascii :=
  let n := nat_of_ascii c in
  if ((65 <=? n)%nat && (n <=? 90)%nat)%bool then ascii_of_nat (n + 32)%nat else c.

Fixpoint toLowerCase_ascii (s : string) : string :=
  match s with
  | EmptyString => EmptyString
  | String c rest => String (lower_ascii c) (toLowerCase_ascii rest)
  end.

Definition ascii_runtime : JsRuntime :=
  {| toLowerCase := toLowerCase_ascii; toLowerCase_empty := eq_refl |}.

Definition python3 : IKernel :=
  {| kernel_name := "python3"; kernel_isReady := true;
     kernel_ready := Fulfilled tt |}.

Definition pysparkkernel : IKernel :=
  {| kernel_name := "pysparkkernel"; kernel_isReady := true;
     kernel_ready := Fulfilled tt |}.

(** A kernel whose [ready] promise rejects. *)
Definition spark3kernel : IKernel :=
  {| kernel_name := "spark3kernel"; kernel_isReady := false;
     kernel_ready := Rejected (Error "kernel died") |}.

Definition session_with (k : IKernel) : ISession :=
  {| session_id := "session-1"; session_status := "idle";
     session_kernel := Some k; defaultKernelLoaded := None |}.

Definition connection_hup : NotebookConnection :=
  {| host := "h"; knoxport := "8443"; user := "u"; password := "p";
     connectionProfile_id := "profile-1" |}.

Definition connection_unset : NotebookConnection :=
  {| host := "other"; knoxport := "0"; user := "nobody"; password := "";
     connectionProfile_id := "-1" |}.

(** A rejected HTTP request with the given response status. *)
Definition status_error (code : Z) : JsError :=
  {| message := "Request failed"; response := Some {| status := code |} |}.

(** A server manager that never reaches the started state. *)
Definition stuck_server : ServerManager :=
  {| sm_isStarted := false; sm_startServer := Fulfilled tt;
     sm_isStarted_afterStart := false; sm_stopServer := Fulfilled tt |}.

(** A backend whose first [startNew] settles as [first] and whose second
    settles as [second]; everything else succeeds, and a kernel change
    yields [spark3kernel]. *)
Definition world_of (sm : option ServerManager)
    (first second : Completion ISession) : World :=
  {| serverManager := sm;
     sessionManager_isReady := true;
     sessionManager_ready := Fulfilled tt;
     sessionManager_startNew := fun n _ =>
       match n with O => first | _ => second end;
     session_changeKernel := fun s _ =>
       (Fulfilled spark3kernel,
        {| session_id := session_id s; session_status := session_status s;
           session_kernel := Some spark3kernel;
           defaultKernelLoaded := defaultKernelLoaded s |});
     kernel_requestExecute := fun _ _ _ => Fulfilled tt;
     registered_action := fun _ _ => Fulfilled tt |}.

Definition fine_world : World :=
  world_of None (Fulfilled (session_with python3)) (Fulfilled (session_with python3)).

Definition notebook : IClientSessionOptions :=
  {| options_path := Some "notebook.ipynb" |}.

(** A fresh object whose owner asked for a kernel to be started, by name
    or (with [None]) leaving the choice to the backend. *)
Definition fresh_preferring (name : option string) : State :=
  set_kernelPreference
    (Some {| pref_name := name; pref_shouldStart := true |})
    (new_ClientSession notebook).

(* ===================================================================== *)
(** ** Vocabulary of the further properties *)
(* ===================================================================== *)

Definition is_startNew (e : Event) : bool :=
  match e with
  | StartNewRequested _ => true
  | _ => false
  end.

Definition is_kernelChanged (e : Event) : bool :=
  match e with
  | KernelChangedFired _ _ => true
  | _ => false
  end.

Definition is_Initialize (op : Operation) : bool :=
  match op with
  | Initialize _ => true
  | _ => false
  end.

(** [preserves f st st']: the reading [f] of the object is as it was. *)
Definition preserves {A} (f : State -> A) (st st' : State) : Prop :=
  f st' = f st.

(** [initialize] after its first statement, the registration of the
    default action. *)
Definition initialize_rest (connection : option NotebookConnection) (w : World)
  : Async unit :=
  try_catch
    (modify (set_connection connection) ;;
     p <- promise_of (startServer w) ;;
     modify (set_serverLoadFinished (Some p)) ;;
     await p ;;
     initializeSession w)
    (fun err => modify (set_errorMessage (Some (getErrorMessage err)))) ;;
  modify (set_isReady true) ;;
  r <- gets _ready ;;
  Deferred_resolve r ;;
  k <- gets _kernelChangeCompleted ;;
  Deferred_resolve k.

(** A run of [setDirty] calls, first to last. *)
Definition setDirty_all (ds : list bool) (m : NotebookInputModel)
  : NotebookInputModel :=
  fold_left (fun m d => setDirty d m) ds m.

(** The events a kernel-config action can log. *)
Definition action_kind (e : Event) : bool :=
  match e with
  | ActionInvoked _ _ | ActionCompleted _ | ExecuteRequested _ _ => true
  | _ => false
  end.

(** The events a session start can log. *)
Definition start_kind (e : Event) : bool :=
  match e with
  | StartNewRequested _ | Warned _ | StatusChangedFired _ => true
  | _ => action_kind e
  end.

(** The events the internal kernel switch can log. *)
Definition switch_kind (e : Event) : bool :=
  match e with
  | ChangeKernelRequested _ => true
  | _ => start_kind e
  end.

(** [logs_within K st st']: the log has grown by events of kind [K] only. *)
Definition logs_within (K : Event -> bool) (st st' : State) : Prop :=
  exists d, trace st' = trace st ++ d /\ Forall (fun e => K e = true) d.

(** Whether the backend server is, or comes, up when [startServer] asks:
    there is no server manager, or it reports started, or its
    [startServer()] fulfils and it reports started afterwards. *)
Definition server_comes_up (w : World) : bool :=
  match serverManager w with
  | None => true
  | Some sm =>
      sm_isStarted sm
      || (is_fulfilled (sm_startServer sm) && sm_isStarted_afterStart sm)
  end.

(** Whether the session manager is ready, or becomes so when awaited. *)
Definition session_manager_comes_up (w : World) : bool :=
  sessionManager_isReady w || is_fulfilled (sessionManager_ready w).

(** Whether the kernel preference asks for a session to be started. *)
Definition wants_start (st : State) : bool :=
  match _kernelPreference st with
  | Some p => pref_shouldStart p
  | None => false
  end.

(** The state in which [initialize] reaches the session start when the
    server and the session manager come up: the default action registered,
    the connection stored, the request to start the server logged if one
    was made, [isServerStarted] true and the server promise fulfilled. *)
Definition session_start_state (connection : option NotebookConnection)
    (w : World) (st : State) : State :=
  let st1 :=
    set_connection connection
      (set_kernelConfigActions (_kernelConfigActions st ++ [DefaultAction]) st) in
  let st2 :=
    match serverManager w with
    | Some sm => if sm_isStarted sm then st1 else logged [ServerStartRequested] st1
    | None => st1
    end in
  set_serverLoadFinished (Some (Fulfilled tt)) (set_isServerStarted (Some true) st2).

(** How [initialize] ends once its [try] block has settled as [outcome]. *)
Definition initialize_end (outcome : Completion unit) : Async unit :=
  try_catch (await outcome)
    (fun err => modify (set_errorMessage (Some (getErrorMessage err)))) ;;
  modify (set_isReady true) ;;
  r <- gets _ready ;;
  Deferred_resolve r ;;
  k <- gets _kernelChangeCompleted ;;
  Deferred_resolve k.

Definition is_statusChanged (e : Event) : bool :=
  match e with
  | StatusChangedFired _ => true
  | _ => false
  end.

(** [stays_resolved st st']: every gate resolved in [st] is resolved in
    [st']. *)
Definition stays_resolved (st st' : State) : Prop :=
  forall g, resolved st g -> resolved st' g.

(** *** Further concrete collaborators *)

(** A backend without server manager whose sessions and kernel changes
    yield the kernel [k] and whose execute requests settle as [done]. *)
Definition world_yielding (k : IKernel) (done : Completion unit) : World :=
  {| serverManager := None;
     sessionManager_isReady := true;
     sessionManager_ready := Fulfilled tt;
     sessionManager_startNew := fun _ _ => Fulfilled (session_with k);
     session_changeKernel := fun s _ => (Fulfilled k, session_with k);
     kernel_requestExecute := fun _ _ _ => done;
     registered_action := fun _ _ => Fulfilled tt |}.

(** A backend whose session manager is not ready and whose [ready] promise
    rejects. *)
Definition world_with_unready_session_manager (err : JsError) : World :=
  {| serverManager := None;
     sessionManager_isReady := false;
     sessionManager_ready := Rejected err;
     sessionManager_startNew := fun _ _ => Fulfilled (session_with python3);
     session_changeKernel := fun s _ => (Fulfilled python3, session_with python3);
     kernel_requestExecute := fun _ _ _ => Fulfilled tt;
     registered_action := fun _ _ => Fulfilled tt |}.

(** An object after one [initialize]-like registration, holding a session
    on kernel [k] and the connection [c]. *)
Definition connected_to (k : IKernel) (c : option NotebookConnection) : State :=
  set_connection c
    (set_kernelConfigActions [DefaultAction]
       (set_session (Some (session_with k)) (new_ClientSession notebook))).

(* ===================================================================== *)
(** ** Properties *)
(* ===================================================================== *)

(** *** Frame rules *)

Section Keeps.
Context (R : relation State) `{!PreOrder R}.

Lemma keeps_ret {A} (a : A) : keeps R (ret a).
Proof. intros st. reflexivity. Qed.

Lemma keeps_throw {A} (e : JsError) : keeps R (@throw A e).
Proof. intros st. reflexivity. Qed.

Lemma keeps_await {A} (p : Completion A) : keeps R (await p).
Proof. intros st. reflexivity. Qed.

Lemma keeps_gets {A} (f : State -> A) : keeps R (gets f).
Proof. intros st. reflexivity. Qed.

Lemma keeps_deref {A} (what : string) (x : option A) : keeps R (deref what x).
Proof. destruct x; intros st; reflexivity. Qed.

Lemma keeps_modify (f : State -> State) :
  (forall st, R st (f st)) -> keeps R (modify f).
Proof. intros H st. apply H. Qed.

Lemma keeps_bind {A B} (m : Async A) (k : A -> Async B) :
  keeps R m -> (forall a, keeps R (k a)) -> keeps R (bind m k).
Proof.
  intros Hm Hk st. unfold bind. specialize (Hm st).
  destruct (m st) as [[a|e] st1]; simpl in *.
  - etransitivity; [exact Hm | apply Hk].
  - exact Hm.
Qed.

Lemma keeps_try_catch {A} (body : Async A) (handler : JsError -> Async A) :
  keeps R body -> (forall e, keeps R (handler e)) -> keeps R (try_catch body handler).
Proof.
  intros Hb Hh st. unfold try_catch. specialize (Hb st).
  destruct (body st) as [[a|e] st1]; simpl in *.
  - exact Hb.
  - etransitivity; [exact Hb | apply Hh].
Qed.

Lemma keeps_promise_of {A} (m : Async A) : keeps R m -> keeps R (promise_of m).
Proof.
  intros Hm st. unfold promise_of. specialize (Hm st).
  destruct (m st) as [c st1]; exact Hm.
Qed.
End Keeps.

Lemma keeps_weaken {A} (R R' : relation State) (m : Async A) :
  (forall a b, R a b -> R' a b) -> keeps R m -> keeps R' m.
Proof. intros H Hm st. apply H, Hm. Qed.

(** The structural steps of a frame proof; what is left are the writes. *)
Ltac keeps_step :=
  lazymatch goal with
  | |- keeps _ (bind _ _) => apply keeps_bind; [apply _ | | intros ?]
  | |- keeps _ (try_catch _ _) => apply keeps_try_catch; [apply _ | | intros ?]
  | |- keeps _ (promise_of _) => apply keeps_promise_of
  | |- keeps _ (ret _) => apply keeps_ret; apply _
  | |- keeps _ (throw _) => apply keeps_throw; apply _
  | |- keeps _ (await _) => apply keeps_await; apply _
  | |- keeps _ (gets _) => apply keeps_gets; apply _
  | |- keeps _ (deref _ _) => apply keeps_deref; apply _
  | |- keeps _ (match ?x with _ => _ end) => destruct x
  end.

Lemma resolve_calls_app g t1 t2 :
  resolve_calls g (t1 ++ t2) = resolve_calls g t1 + resolve_calls g t2.
Proof. unfold resolve_calls. by rewrite List.filter_app, length_app. Qed.

#[local] Instance quiet_preorder : PreOrder quiet.
Proof.
  split.
  - intros st. split; try reflexivity.
    exists []. split; [by rewrite app_nil_r | done].
  - intros a b c [] []. split; try congruence.
    destruct q_trace0 as (d1 & E1 & N1), q_trace1 as (d2 & E2 & N2).
    exists (d1 ++ d2). split.
    + by rewrite E2, E1, app_assoc.
    + intros g. by rewrite resolve_calls_app, N1, N2.
Qed.

Lemma quiet_emit (e : Event) :
  (forall g, is_resolve_of g e = false) -> keeps quiet (emit e).
Proof.
  intros H st. unfold emit, modify; simpl. split; try reflexivity.
  exists [e]. split; [reflexivity |].
  intros g. unfold resolve_calls; simpl. by rewrite H.
Qed.

Lemma quiet_write (f : State -> State) :
  (forall st, _path (f st) = _path st) ->
  (forall st, _isReady (f st) = _isReady st) ->
  (forall st, _ready (f st) = _ready st) ->
  (forall st, _kernelChangeCompleted (f st) = _kernelChangeCompleted st) ->
  (forall st, _kernelPreference (f st) = _kernelPreference st) ->
  (forall st, _errorMessage (f st) = _errorMessage st) ->
  (forall st, _connection (f st) = _connection st) ->
  (forall st, _kernelConfigActions (f st) = _kernelConfigActions st) ->
  (forall st, gates (f st) = gates st) ->
  (forall st, trace (f st) = trace st) ->
  keeps quiet (modify f).
Proof.
  intros. apply keeps_modify. intros st. split; auto.
  exists []. split; [rewrite app_nil_r; auto | done].
Qed.

Ltac quiet_tac :=
  repeat first
    [ keeps_step
    | apply quiet_emit; intros ?; reflexivity
    | apply quiet_write; intros ?; reflexivity ].

(** The kernel-config actions write nothing but the log. *)

#[local] Instance logs_only_preorder : PreOrder logs_only.
Proof.
  split.
  - intros st. exists []. split; [| done].
    destruct st; unfold set_trace; simpl. by rewrite app_nil_r.
  - intros a b c (d1 & -> & N1) (d2 & -> & N2).
    exists (d1 ++ d2). split.
    + destruct a; unfold set_trace; simpl. by rewrite app_assoc.
    + intros g. by rewrite resolve_calls_app, N1, N2.
Qed.

Lemma logs_only_quiet st st' : logs_only st st' -> quiet st st'.
Proof.
  intros (d & -> & N). split; try reflexivity. by exists d.
Qed.

Lemma logs_only_emit (e : Event) :
  (forall g, is_resolve_of g e = false) -> keeps logs_only (emit e).
Proof.
  intros H st. exists [e]. split; [reflexivity |].
  intros g. unfold resolve_calls; simpl. by rewrite H.
Qed.

Ltac logs_tac :=
  repeat first
    [ keeps_step
    | apply logs_only_emit; intros ?; reflexivity ].

Lemma logs_only_runTasksBeforeSessionStart n w :
  keeps logs_only (runTasksBeforeSessionStart n w).
Proof. unfold runTasksBeforeSessionStart. logs_tac. Qed.

Lemma logs_only_startAction a n w : keeps logs_only (startAction a n w).
Proof.
  destruct a; simpl; [apply logs_only_runTasksBeforeSessionStart | logs_tac].
Qed.

Lemma logs_only_run_actions acts n w : keeps logs_only (run_actions acts n w).
Proof.
  induction acts as [|a rest IH]; simpl; [logs_tac |].
  keeps_step; [logs_tac |].
  keeps_step; [apply logs_only_startAction |].
  keeps_step; [logs_tac | exact IH].
Qed.

Lemma logs_only_runKernelConfigActions n w :
  keeps logs_only (runKernelConfigActions n w).
Proof.
  unfold runKernelConfigActions.
  keeps_step; [logs_tac | apply logs_only_run_actions].
Qed.

Lemma quiet_runKernelConfigActions n w :
  keeps quiet (runKernelConfigActions n w).
Proof.
  eapply keeps_weaken;
    [apply logs_only_quiet | apply logs_only_runKernelConfigActions].
Qed.

Lemma quiet_startServer w : keeps quiet (startServer w).
Proof. unfold startServer. quiet_tac. Qed.

Lemma quiet_startSessionInstance n w : keeps quiet (startSessionInstance n w).
Proof.
  unfold startSessionInstance.
  keeps_step; [quiet_tac |].
  keeps_step; [quiet_tac |].
  keeps_step; [quiet_tac |].
  keeps_step; [apply quiet_runKernelConfigActions | quiet_tac].
Qed.

Lemma quiet_initializeSession w : keeps quiet (initializeSession w).
Proof.
  unfold initializeSession.
  keeps_step; [quiet_tac |].
  keeps_step; [quiet_tac |].
  keeps_step; [quiet_tac |].
  keeps_step; [| quiet_tac].
  keeps_step; [quiet_tac |].
  keeps_step; [quiet_tac |].
  keeps_step; [| quiet_tac].
  keeps_step; [apply quiet_startSessionInstance | quiet_tac].
Qed.

Lemma quiet_doChangeKernel o w : keeps quiet (doChangeKernel o w).
Proof.
  unfold doChangeKernel.
  keeps_step; [quiet_tac |].
  keeps_step.
  - keeps_step; [quiet_tac |].
    destruct (session_changeKernel w i o) as [outcome s'].
    keeps_step; [quiet_tac |].
    keeps_step; [quiet_tac |].
    keeps_step; [apply quiet_runKernelConfigActions | quiet_tac].
  - keeps_step; [apply quiet_startSessionInstance | quiet_tac].
Qed.

Lemma quiet_shutdown w : keeps quiet (shutdown w).
Proof. unfold shutdown. quiet_tac. Qed.

#[local] Instance calm_preorder : PreOrder calm.
Proof.
  split.
  - intros st. split; try reflexivity.
    exists []. split; [by rewrite app_nil_r | done].
  - intros a b c [] []. split; try congruence.
    destruct c_trace0 as (d1 & E1 & N1), c_trace1 as (d2 & E2 & N2).
    exists (d1 ++ d2). split.
    + by rewrite E2, E1, app_assoc.
    + intros g. by rewrite resolve_calls_app, N1, N2.
Qed.

#[local] Instance steady_preorder : PreOrder steady.
Proof.
  split.
  - intros st. by split.
  - intros a b c [] []. split; [congruence | congruence | set_solver].
Qed.

Lemma quiet_calm st st' : quiet st st' -> calm st st'.
Proof. intros []. by split. Qed.

Lemma calm_steady st st' : calm st st' -> steady st st'.
Proof. intros []. split; [done | done | by rewrite c_gates0]. Qed.

Lemma calm_write (f : State -> State) :
  (forall st, _isReady (f st) = _isReady st) ->
  (forall st, _ready (f st) = _ready st) ->
  (forall st, _kernelChangeCompleted (f st) = _kernelChangeCompleted st) ->
  (forall st, _errorMessage (f st) = _errorMessage st) ->
  (forall st, gates (f st) = gates st) ->
  (forall st, trace (f st) = trace st) ->
  keeps calm (modify f).
Proof.
  intros. apply keeps_modify. intros st. split; auto.
  exists []. split; [rewrite app_nil_r; auto | done].
Qed.

Lemma steady_write (f : State -> State) :
  (forall st, _ready (f st) = _ready st) ->
  (forall st, _kernelChangeCompleted (f st) = _kernelChangeCompleted st) ->
  (forall st, gates (f st) = gates st) ->
  keeps steady (modify f).
Proof.
  intros H1 H2 H3. apply keeps_modify. intros st. split; auto. by rewrite H3.
Qed.

Lemma steady_emit e : keeps steady (emit e).
Proof. apply steady_write; intros; reflexivity. Qed.

Lemma steady_Deferred_resolve g : keeps steady (Deferred_resolve g).
Proof.
  intros st. unfold Deferred_resolve, bind, modify, emit; simpl.
  split; simpl; [done | done | rewrite dom_insert_L; set_solver].
Qed.

Lemma steady_new_Deferred : keeps steady new_Deferred.
Proof.
  intros st. unfold new_Deferred; simpl.
  split; simpl; [done | done | rewrite dom_insert_L; set_solver].
Qed.

Ltac steady_tac :=
  repeat first
    [ keeps_step
    | apply steady_emit
    | apply steady_Deferred_resolve
    | apply steady_write; intros ?; reflexivity ].

Lemma steady_of_quiet {A} (m : Async A) : keeps quiet m -> keeps steady m.
Proof.
  apply keeps_weaken. intros a b H. by apply calm_steady, quiet_calm.
Qed.

Lemma initialize_unfold connection w :
  initialize connection w =
  (try_catch (initialize_body connection w)
     (fun err => modify (set_errorMessage (Some (getErrorMessage err)))) ;;
   modify (set_isReady true) ;;
   r <- gets _ready ;;
   Deferred_resolve r ;;
   k <- gets _kernelChangeCompleted ;;
   Deferred_resolve k).
Proof. reflexivity. Qed.

Lemma calm_initialize_body connection w :
  keeps calm (initialize_body connection w).
Proof.
  unfold initialize_body.
  keeps_step; [apply calm_write; intros ?; reflexivity |].
  keeps_step; [apply calm_write; intros ?; reflexivity |].
  keeps_step.
  { keeps_step. eapply keeps_weaken; [apply quiet_calm | apply quiet_startServer]. }
  keeps_step; [apply calm_write; intros ?; reflexivity |].
  keeps_step; [keeps_step |].
  eapply keeps_weaken; [apply quiet_calm | apply quiet_initializeSession].
Qed.

Lemma steady_initialize connection w : keeps steady (initialize connection w).
Proof.
  rewrite initialize_unfold.
  keeps_step.
  { keeps_step.
    - eapply keeps_weaken; [apply calm_steady | apply calm_initialize_body].
    - steady_tac. }
  steady_tac.
Qed.

Lemma calm_updateConnection connection w :
  keeps calm (updateConnection connection w).
Proof.
  unfold updateConnection.
  keeps_step; [keeps_step |].
  keeps_step; [| keeps_step].
  keeps_step; [apply calm_write; intros ?; reflexivity |].
  keeps_step; [keeps_step |].
  keeps_step; [| keeps_step].
  keeps_step; [| keeps_step].
  eapply keeps_weaken; [apply quiet_calm | apply quiet_runKernelConfigActions].
Qed.

Lemma changeKernel_unfold options w st :
  changeKernel options w st =
  (kernel' <- doChangeKernel options w ;;
   changeKernel_exit (kernel st) kernel') (changeKernel_entry st).
Proof. reflexivity. Qed.

Lemma steady_changeKernel_exit old k' : keeps steady (changeKernel_exit old k').
Proof. unfold changeKernel_exit. steady_tac. Qed.

Lemma steady_after_entry options w st :
  steady (changeKernel_entry st) (changeKernel options w st).2.
Proof.
  rewrite changeKernel_unfold.
  apply (keeps_bind steady); [apply steady_of_quiet, quiet_doChangeKernel |].
  intros k'. apply steady_changeKernel_exit.
Qed.

(** *** The gates of a reachable state *)

Lemma gates_wf_new options : gates_wf (new_ClientSession options).
Proof.
  split.
  - apply elem_of_dom. exists Pending. reflexivity.
  - intros E. vm_compute in E. discriminate E.
Qed.

Lemma gates_wf_steady st st' : steady st st' -> gates_wf st -> gates_wf st'.
Proof.
  intros [Hr Hk Hd] [Hin Hne]. split.
  - rewrite Hr. by apply Hd.
  - by rewrite Hr, Hk.
Qed.

Lemma gates_wf_entry st : gates_wf st -> gates_wf (changeKernel_entry st).
Proof.
  intros [Hin Hne]. split.
  - change (_ready st ∈ dom (<[fresh (dom (gates st)) := Pending]> (gates st))).
    rewrite dom_insert_L. set_solver.
  - change (_ready st <> fresh (dom (gates st))).
    intros E. apply (is_fresh (dom (gates st))). by rewrite <- E.
Qed.

Lemma gates_wf_perform op w st : gates_wf st -> gates_wf (perform op w st).
Proof.
  intros H. destruct op; simpl.
  - eapply gates_wf_steady; [apply steady_initialize | exact H].
  - eapply gates_wf_steady; [apply steady_after_entry | by apply gates_wf_entry].
  - eapply gates_wf_steady; [| exact H].
    apply calm_steady, calm_updateConnection.
  - eapply gates_wf_steady; [| exact H].
    apply calm_steady, quiet_calm, quiet_shutdown.
  - exact H.
Qed.

Lemma reachable_gates_wf allowed st : reachable_by allowed st -> gates_wf st.
Proof.
  induction 1 as [options | st op w _ IH _].
  - apply gates_wf_new.
  - by apply gates_wf_perform.
Qed.

(** *** Reading the events of one call *)

Lemma new_events_app st st' d :
  trace st' = trace st ++ d -> new_events st st' = d.
Proof. intros E. unfold new_events. rewrite E. apply drop_app_length. Qed.

Lemma resolve_calls_self g : resolve_calls g [GateResolveCalled g] = 1.
Proof. unfold resolve_calls; simpl. by rewrite bool_decide_eq_true_2. Qed.

Lemma resolve_calls_other g g' :
  g' <> g -> resolve_calls g [GateResolveCalled g'] = 0.
Proof. intros H. unfold resolve_calls; simpl. by rewrite bool_decide_eq_false_2. Qed.

(** *** C1 *)

(** C1. A single call to [initialize], on any reachable object and against
    any behaviour of the server manager, the session manager and the
    kernel, fulfils (never rejects); afterwards [isReady] is true, the
    object still holds the same [ready] and [kernelChangeCompleted] gates,
    both are resolved, and [resolve()] was called exactly once on each
    during the call.  An exception of the start-up sequence is not
    propagated: its message is stored in [errorMessage], and without an
    exception [errorMessage] is left as it was. *)
Theorem initialize_always_resolves connection w st :
  reachable st ->
  let r := initialize connection w st in
  r.1 = Fulfilled tt
  /\ isReady r.2 = true
  /\ _ready r.2 = _ready st
  /\ _kernelChangeCompleted r.2 = _kernelChangeCompleted st
  /\ resolved r.2 (_ready st)
  /\ resolved r.2 (_kernelChangeCompleted st)
  /\ resolve_calls (_ready st) (new_events st r.2) = 1
  /\ resolve_calls (_kernelChangeCompleted st) (new_events st r.2) = 1
  /\ match (initialize_body connection w st).1 with
     | Fulfilled _ => errorMessage r.2 = errorMessage st
     | Rejected err => errorMessage r.2 = Some (getErrorMessage err)
     end.
Proof.
  intros Hreach. apply reachable_gates_wf in Hreach as [_ Hne].
  rewrite initialize_unfold. unfold try_catch, bind.
  pose proof (calm_initialize_body connection w st) as Hc.
  destruct (initialize_body connection w st) as [[[]|err] st1];
    destruct Hc as [_ Hr Hk He Hg (d & Ht & Hd)]; simpl in *;
    unfold resolved, isReady, errorMessage; simpl;
    rewrite Hr, Hk; repeat split;
    try (rewrite lookup_insert_ne by congruence; apply lookup_insert_eq);
    try apply lookup_insert_eq;
    try exact He;
    (erewrite new_events_app
       by (simpl; rewrite Ht, <- !app_assoc; reflexivity));
    rewrite !resolve_calls_app, Hd, resolve_calls_self,
      resolve_calls_other by congruence; reflexivity.
Qed.

(** *** C2 *)

(** C2. Whenever [changeKernel(options)] obtains a new kernel from
    [doChangeKernel] and that kernel's [ready] promise rejects with [err],
    the call rejects with that same [err]; before it does, the
    [kernelChangeCompleted] gate allocated at the start of this call (a gate
    that did not exist before) has been resolved, by one [resolve()] which
    is the last thing the call does; [errorMessage] is left untouched and
    [isReady] takes the kernel's [isReady]. *)
Theorem changeKernel_resolves_gate_before_rethrow options w st k err st2 :
  doChangeKernel options w (changeKernel_entry st) = (Fulfilled (Some k), st2) ->
  kernel_ready k = Rejected err ->
  let r := changeKernel options w st in
  r.1 = Rejected err
  /\ _kernelChangeCompleted r.2 = fresh (dom (gates st))
  /\ (_kernelChangeCompleted r.2 ∉ dom (gates st))
  /\ resolved r.2 (_kernelChangeCompleted r.2)
  /\ (exists d, new_events st r.2 = d ++ [GateResolveCalled (_kernelChangeCompleted r.2)]
                /\ forall g, resolve_calls g d = 0)
  /\ errorMessage r.2 = errorMessage st
  /\ isReady r.2 = kernel_isReady k.
Proof.
  intros Hdo Hready.
  pose proof (quiet_doChangeKernel options w (changeKernel_entry st)) as Hq.
  rewrite changeKernel_unfold. unfold bind at 1. rewrite Hdo in *.
  destruct Hq as [_ _ _ Hk _ He _ _ _ (d & Ht & Hd)]; simpl in Hk, He, Ht.
  unfold changeKernel_exit, try_catch, bind; simpl. rewrite Hready; simpl.
  unfold resolved, errorMessage, isReady; simpl. rewrite Hk.
  repeat split.
  - apply is_fresh.
  - apply lookup_insert_eq.
  - exists d. split; [| exact Hd].
    apply new_events_app; simpl. by rewrite Ht, <- app_assoc.
  - exact He.
Qed.

(** *** Starting a session *)

Lemma logged_logged evs1 evs2 st :
  logged evs2 (logged evs1 st) = logged (evs1 ++ evs2) st.
Proof. destruct st; unfold logged, set_trace; simpl. by rewrite app_assoc. Qed.

Lemma new_events_logged st st' evs d :
  trace st' = trace (logged evs st) ++ d -> new_events st st' = evs ++ d.
Proof.
  intros E. apply new_events_app. rewrite E; simpl. by rewrite app_assoc.
Qed.

Lemma startSessionInstance_run kernelName w st :
  startSessionInstance kernelName w st =
  match acquire_session (_path st) kernelName w st with
  | (Fulfilled session, st1) => install_session session kernelName w st1
  | (Rejected err, st1) => (Rejected err, st1)
  end.
Proof. reflexivity. Qed.

Lemma status_is_501_true err :
  status_is_501 err = true <->
  exists resp, response err = Some resp /\ status resp = HTTP_NOT_IMPLEMENTED.
Proof.
  unfold status_is_501, HTTP_NOT_IMPLEMENTED.
  destruct (response err) as [resp|].
  - rewrite Z.eqb_eq. split; [eauto | by intros (? & [= <-] & ?)].
  - split; [done | by intros (? & ? & ?)].
Qed.

(** A first [startNew] that fulfils: the session is flagged as the
    requested kernel's. *)
Lemma acquire_session_first path n w st s :
  sessionManager_startNew w 0 {| opt_path := path; opt_kernelName := n |}
    = Fulfilled s ->
  acquire_session path n w st =
  (Fulfilled (set_defaultKernelLoaded true s),
   logged [StartNewRequested {| opt_path := path; opt_kernelName := n |}] st).
Proof.
  intros H. unfold acquire_session, try_catch, bind, emit, modify, await; simpl.
  by rewrite H.
Qed.

(** A first [startNew] that rejects with status 501: warning and a second
    [startNew] without kernel name. *)
Lemma acquire_session_fallback path n w st err :
  sessionManager_startNew w 0 {| opt_path := path; opt_kernelName := n |}
    = Rejected err ->
  status_is_501 err = true ->
  acquire_session path n w st =
  (match sessionManager_startNew w 1 {| opt_path := path; opt_kernelName := None |} with
   | Fulfilled s => Fulfilled (set_defaultKernelLoaded false s)
   | Rejected err' => Rejected err'
   end,
   logged [StartNewRequested {| opt_path := path; opt_kernelName := n |};
           Warned (localize "sparkKernelRequiresConnection"
                     "Kernel {0} was not found. The default kernel will be used instead." n);
           StartNewRequested {| opt_path := path; opt_kernelName := None |}] st).
Proof.
  intros H H501. unfold acquire_session, try_catch, bind, emit, modify, await; simpl.
  rewrite H, H501; simpl.
  destruct (sessionManager_startNew w 1 _); simpl;
    (f_equal; destruct st; unfold logged, set_trace; simpl;
     by rewrite <- !app_assoc).
Qed.

(** A first [startNew] that rejects with anything else: re-thrown. *)
Lemma acquire_session_rethrow path n w st err :
  sessionManager_startNew w 0 {| opt_path := path; opt_kernelName := n |}
    = Rejected err ->
  status_is_501 err = false ->
  acquire_session path n w st =
  (Rejected err,
   logged [StartNewRequested {| opt_path := path; opt_kernelName := n |}] st).
Proof.
  intros H H501. unfold acquire_session, try_catch, bind, emit, modify, await; simpl.
  by rewrite H, H501.
Qed.

Lemma logs_only_after_install session n w :
  keeps logs_only
    (runKernelConfigActions n w ;; emit (StatusChangedFired session)).
Proof.
  keeps_step; [apply logs_only_runKernelConfigActions | logs_tac].
Qed.

(** Installing a session: the session is stored and only the log moves. *)
Lemma install_session_state session n w st :
  exists d,
    (install_session session n w st).2
    = logged d (set_session (Some session) st)
    /\ forall g, resolve_calls g d = 0.
Proof.
  destruct (logs_only_after_install session n w (set_session (Some session) st))
    as (d & E & N).
  exists d. split; [exact E | exact N].
Qed.

Lemma initialize_fulfils connection w st :
  (initialize connection w st).1 = Fulfilled tt.
Proof.
  rewrite initialize_unfold. unfold try_catch, bind.
  by destruct (initialize_body connection w st) as [[[]|err] st1].
Qed.

(** *** C3 *)

(** C3 (amended). When the first [startNew] of a session start rejects with
    an error whose response status is 501 (the code with which the backend
    signals an unknown kernel), the session-start routine logs a warning
    and issues a second [startNew] whose [kernelName] is undefined; if that
    one fulfils with a session, this session is installed with
    [defaultKernelLoaded] false, and if it rejects, its error leaves the
    routine.  When the first [startNew] rejects with any other status, or
    with no response at all, the routine re-throws that error after the one
    request, with no warning and no session installed.  In no case does an
    exception leave [initialize]. *)
Theorem kernel_not_found_falls_back kernelName w st err :
  sessionManager_startNew w 0
    {| opt_path := _path st; opt_kernelName := kernelName |} = Rejected err ->
  let first := StartNewRequested {| opt_path := _path st; opt_kernelName := kernelName |} in
  let fallback := {| opt_path := _path st; opt_kernelName := None |} in
  let r := startSessionInstance kernelName w st in
  ((exists resp, response err = Some resp /\ status resp = HTTP_NOT_IMPLEMENTED) ->
     (exists msg d,
        new_events st r.2 = [first; Warned msg; StartNewRequested fallback] ++ d)
     /\ (forall s, sessionManager_startNew w 1 fallback = Fulfilled s ->
           _session r.2 = Some (set_defaultKernelLoaded false s))
     /\ (forall err', sessionManager_startNew w 1 fallback = Rejected err' ->
           r.1 = Rejected err' /\ _session r.2 = _session st))
  /\ (~ (exists resp, response err = Some resp /\ status resp = HTTP_NOT_IMPLEMENTED) ->
        r = (Rejected err, logged [first] st))
  /\ (forall connection w' st', (initialize connection w' st').1 = Fulfilled tt).
Proof.
  intros H first fallback r. split; [| split].
  - intros H501. apply status_is_501_true in H501.
    subst r. rewrite startSessionInstance_run.
    rewrite (acquire_session_fallback _ _ _ _ _ H H501).
    fold fallback.
    destruct (sessionManager_startNew w 1 fallback) as [s|err'] eqn:E1.
    + destruct (install_session_state (set_defaultKernelLoaded false s) kernelName w
                  (logged [first; Warned (localize "sparkKernelRequiresConnection"
                     "Kernel {0} was not found. The default kernel will be used instead."
                     kernelName); StartNewRequested fallback] st))
        as (d & E & N).
      fold first. rewrite E. split; [| split].
      * eexists _, d. apply new_events_app; simpl. by rewrite <- app_assoc.
      * by intros s' [= <-].
      * intros err' [=].
    + simpl. split; [| split].
      * eexists _, []. by apply new_events_app.
      * intros s [=].
      * by intros err'' [= <-].
  - intros Hn. assert (status_is_501 err = false) as H501.
    { destruct (status_is_501 err) eqn:E; [| done].
      by apply status_is_501_true in E. }
    subst r. rewrite startSessionInstance_run.
    by rewrite (acquire_session_rethrow _ _ _ _ _ H H501).
  - intros. apply initialize_fulfils.
Qed.

(** *** The "spark" marker *)

Lemma prefix_true a s :
  String.prefix a s = true <-> exists post, s = a +:+ post.
Proof.
  revert s. induction a as [|c a IH]; intros [|c' s]; simpl.
  - split; [by exists "" | done].
  - split; [by exists (String c' s) | done].
  - split; [done | by intros (post & [=])].
  - destruct (ascii_dec c c') as [<-|Hne].
    + rewrite IH. split.
      * intros (post & ->). by exists post.
      * intros (post & [= ->]). by exists post.
    + split; [done | intros (post & [= E _]); by destruct Hne].
Qed.

Lemma indexOf_range needle s :
  JsString.indexOf needle s = (-1)%Z \/ (0 <= JsString.indexOf needle s)%Z.
Proof.
  induction s as [|c s IH]; cbn [JsString.indexOf].
  - destruct (String.prefix needle ""); [right; lia | by left].
  - destruct (String.prefix needle (String c s)); [right; lia |].
    destruct (Z.eqb_spec (JsString.indexOf needle s) (-1)); [by left | right; lia].
Qed.

Lemma indexOf_found needle s :
  (-1 < JsString.indexOf needle s)%Z <-> JsString.occurs_in needle s.
Proof.
  unfold JsString.occurs_in. induction s as [|c s IH]; cbn [JsString.indexOf].
  - destruct (String.prefix needle "") eqn:P.
    + apply prefix_true in P as (post & E). split; [| done].
      intros _. by exists "", post.
    + split; [lia |]. intros (pre & post & E).
      destruct pre; simpl in E; [| done].
      assert (String.prefix needle "" = true) as P'
        by (apply prefix_true; by exists post).
      congruence.
  - destruct (String.prefix needle (String c s)) eqn:P.
    + apply prefix_true in P as (post & E). split; [| done].
      intros _. by exists "", post.
    + destruct (Z.eqb_spec (JsString.indexOf needle s) (-1)) as [E1|E1].
      * split; [lia |]. intros (pre & post & E).
        destruct pre as [|c' pre]; simpl in E.
        -- assert (String.prefix needle (String c s) = true) as P'
             by (apply prefix_true; by exists post).
           congruence.
        -- injection E as _ E. assert (-1 < JsString.indexOf needle s)%Z; [| lia].
           apply IH. by exists pre, post.
      * split.
        -- intros _. destruct (indexOf_range needle s) as [?|Hr]; [done |].
           destruct IH as [IH _]. destruct IH as (pre & post & ->); [lia |].
           by exists (String c pre), post.
        -- destruct (indexOf_range needle s); lia.
Qed.

(** [isSparkKernel] answers whether the lower-cased name contains "spark". *)
Lemma isSparkKernel_true name :
  isSparkKernel (Some name) = true <->
  JsString.occurs_in "spark" (toLowerCase runtime name).
Proof.
  unfold isSparkKernel. rewrite andb_true_iff, Z.ltb_lt, indexOf_found.
  split; [by intros [_ H] |]. intros H. split; [| exact H].
  destruct name; [| done].
  rewrite toLowerCase_empty in H.
  destruct H as (pre & post & E). by destruct pre.
Qed.

(** *** The default action *)

(** X17. The default kernel-config action looks at the kernel name it is
    called with.  Called with a name whose lower-casing contains "spark"
    while the object holds a backend session with a kernel and a
    [NotebookConnection], it issues exactly one execute request, silent,
    on the session's kernel, whose code is
    [%_do_not_call_change_endpoint --username=<user> --password=<password>
    --server=<URI-rendered livy url of host and knoxport> --auth=Basic_Access],
    and settles as that request's [done] settles.  When the session, the
    connection, or the marker in the name it is called with is absent, it
    issues no request and changes nothing. *)
Theorem default_action_bootstrap kernelName w st :
  let r := runTasksBeforeSessionStart kernelName w st in
  (forall s k c name,
     _session st = Some s -> session_kernel s = Some k ->
     _connection st = Some c ->
     kernelName = Some name ->
     JsString.occurs_in "spark" (toLowerCase runtime name) ->
     let code :=
       "%_do_not_call_change_endpoint --username=" +:+ user c
         +:+ " --password=" +:+ password c
         +:+ " --server=" +:+ URI_parse_toString (getLivyUrl (host c) (knoxport c))
         +:+ " --auth=Basic_Access" in
     r = (kernel_requestExecute w k code true,
          logged [ExecuteRequested code true] st))
  /\ ((_session st = None \/ _connection st = None
       \/ forall name, kernelName = Some name ->
            ~ JsString.occurs_in "spark" (toLowerCase runtime name)) ->
      r = (Fulfilled tt, st)).
Proof.
  intros r. subst r. unfold runTasksBeforeSessionStart, bind, gets.
  cbv beta iota zeta. split.
  - intros s k c name Hs Hk Hc -> Hspark.
    apply isSparkKernel_true in Hspark.
    rewrite Hs, Hc, Hspark, Hk. reflexivity.
  - intros [Hs | [Hc | Hn]].
    + by rewrite Hs.
    + rewrite Hc. by destruct (_session st).
    + destruct (_session st) as [s|]; [| done].
      destruct (_connection st) as [c|]; [| done].
      destruct (isSparkKernel kernelName) eqn:E; [| done].
      destruct kernelName as [name|]; [| done].
      apply isSparkKernel_true in E. by destruct (Hn name).
Qed.

(** *** Readiness and the [ready] gate *)

Lemma initialize_ready connection w st :
  let r := initialize connection w st in
  isReady r.2 = true /\ resolved r.2 (_ready r.2).
Proof.
  rewrite initialize_unfold. unfold try_catch, bind.
  pose proof (calm_initialize_body connection w st) as Hc.
  destruct (initialize_body connection w st) as [[[]|err] st1];
    simpl; unfold resolved; simpl; (split; [done |]);
    rewrite lookup_insert; case_decide; [done | | done |];
    apply lookup_insert_eq.
Qed.

Lemma calm_iff st st' :
  calm st st' ->
  (isReady st = true <-> resolved st (_ready st)) ->
  (isReady st' = true <-> resolved st' (_ready st')).
Proof.
  intros [Hi Hr _ _ Hg _]. unfold isReady, resolved. by rewrite Hi, Hr, Hg.
Qed.

(** *** C5 *)

(** C5 (amended). In every state reached from construction by [initialize],
    [updateConnection], [shutdown] and the [kernelPreference] setter,
    against any behaviour of the backend, [isReady] is true if and only if
    the [ready] gate has resolved.  ([changeKernel] is left out: it writes
    [isReady] and never touches the [ready] gate.) *)
Theorem isReady_iff_ready_resolved st :
  reachable_by not_ChangeKernel st ->
  (isReady st = true <-> resolved st (_ready st)).
Proof.
  induction 1 as [options | st op w _ IH Hop].
  - unfold isReady, resolved; simpl. split; [done |].
    intros E. vm_compute in E. discriminate E.
  - destruct op; simpl in *.
    + destruct (initialize_ready connection w st) as [H1 H2]. by split.
    + discriminate Hop.
    + eapply calm_iff; [apply calm_updateConnection | exact IH].
    + eapply calm_iff; [apply quiet_calm, quiet_shutdown | exact IH].
    + exact IH.
Qed.

(** *** C6 *)

Lemma startServer_never_started w sm st :
  serverManager w = Some sm ->
  sm_isStarted sm = false ->
  sm_startServer sm = Fulfilled tt ->
  sm_isStarted_afterStart sm = false ->
  startServer w st =
  (Rejected (Error "Server did not start for unknown reason"),
   logged [ServerStartRequested] st).
Proof.
  intros H1 H2 H3 H4. unfold startServer. rewrite H1, H2; simpl.
  unfold bind, emit, modify, await. by rewrite H3, H4.
Qed.

(** C6. When the server manager exists, reports [isStarted] false, its
    [startServer()] fulfils, and it still reports [isStarted] false
    afterwards, [initialize] (on a fresh object as on any other) fulfils
    with [isReady] true, [isInErrorState] true and [errorMessage] equal to
    "Server did not start for unknown reason", which contains
    "did not start". *)
Theorem initialize_server_did_not_start connection w sm st :
  serverManager w = Some sm ->
  sm_isStarted sm = false ->
  sm_startServer sm = Fulfilled tt ->
  sm_isStarted_afterStart sm = false ->
  let r := initialize connection w st in
  r.1 = Fulfilled tt
  /\ isReady r.2 = true
  /\ isInErrorState r.2 = true
  /\ errorMessage r.2 = Some "Server did not start for unknown reason"
  /\ (exists m, errorMessage r.2 = Some m /\ JsString.occurs_in "did not start" m).
Proof.
  intros H1 H2 H3 H4 r.
  assert (E : errorMessage r.2 = Some "Server did not start for unknown reason").
  { subst r. unfold initialize, try_catch, bind, promise_of, modify.
    rewrite (startServer_never_started _ _ _ H1 H2 H3 H4). reflexivity. }
  split; [apply initialize_fulfils |].
  split; [apply initialize_ready |].
  split; [unfold isInErrorState; unfold errorMessage in E; by rewrite E |].
  split; [exact E |].
  eexists. split; [exact E |]. by exists "Server ", " for unknown reason".
Qed.

(** *** [updateConnection] *)

Lemma updateConnection_no_kernel connection w st :
  kernel st = None -> updateConnection connection w st = (Fulfilled tt, st).
Proof. intros H. unfold updateConnection, bind, gets. by rewrite H. Qed.

Lemma updateConnection_with_kernel connection w st k :
  kernel st = Some k ->
  updateConnection connection w st =
  updateConnection_rerun w
    (set_connection
       (if bool_decide (connectionProfile_id connection <> "-1")
        then Some connection else _connection st) st).
Proof. intros H. unfold updateConnection, bind, gets. by rewrite H. Qed.

Lemma quiet_updateConnection_rerun w : keeps quiet (updateConnection_rerun w).
Proof.
  unfold updateConnection_rerun.
  keeps_step; [quiet_tac |].
  keeps_step; [| quiet_tac].
  keeps_step; [apply quiet_runKernelConfigActions | quiet_tac].
Qed.

Lemma new_events_same st : new_events st st = [].
Proof. unfold new_events. by rewrite drop_all. Qed.

(** C7. After [initialize], as long as no kernel is active (no backend
    session, or a session without kernel), every [updateConnection] call of
    any sequence of such calls fulfils, and the sequence leaves the object
    exactly as [initialize] left it: nothing is logged, so no kernel-config
    action was run. *)
Theorem updateConnection_without_kernel_is_noop connection0 w0 st0 calls :
  let st1 := (initialize connection0 w0 st0).2 in
  kernel st1 = None ->
  let r := updateConnection_all calls st1 in
  Forall (fun c => c = Fulfilled tt) r.1
  /\ r.2 = st1
  /\ List.filter is_action_event (new_events st1 r.2) = [].
Proof.
  intros st1 Hk. generalize dependent st1. intros st1 Hk.
  assert (H : updateConnection_all calls st1 = (map (fun _ => Fulfilled tt) calls, st1)).
  { induction calls as [|[c w] rest IH]; simpl; [done |].
    by rewrite updateConnection_no_kernel, IH. }
  rewrite H; simpl. split; [| split].
  - apply Forall_forall. intros c Hc. apply list_elem_of_In, in_map_iff in Hc.
    by destruct Hc as (? & <- & _).
  - done.
  - by rewrite new_events_same.
Qed.

(** C8. [updateConnection] called with a connection whose profile id is
    ['-1'] leaves the held connection as it was; called with any other id
    while a kernel is active, it leaves the argument as the held
    connection (whatever the kernel-config actions then do). *)
Theorem updateConnection_sentinel connection w st :
  let r := updateConnection connection w st in
  (connectionProfile_id connection = "-1" -> _connection r.2 = _connection st)
  /\ (connectionProfile_id connection <> "-1" -> kernel st <> None ->
      _connection r.2 = Some connection).
Proof.
  intros r. subst r. destruct (kernel st) as [k|] eqn:Hk.
  - rewrite (updateConnection_with_kernel _ _ _ _ Hk).
    match goal with |- context [updateConnection_rerun w ?s] =>
      destruct (quiet_updateConnection_rerun w s) as [_ _ _ _ _ _ Hc _ _ _]
    end.
    rewrite Hc; simpl. split.
    + intros E. by rewrite bool_decide_eq_false_2 by (by intros []).
    + intros E _. by rewrite bool_decide_eq_true_2.
  - rewrite (updateConnection_no_kernel _ _ _ Hk); simpl. split; [done |].
    by intros _ [].
Qed.

(** C10. [updateConnection] called while no kernel is active returns at
    once: the held connection is left as it was, also when the incoming
    connection's profile id is not ['-1'], and nothing else changes
    either. *)
Theorem updateConnection_without_kernel_keeps_connection connection w st :
  kernel st = None ->
  let r := updateConnection connection w st in
  _connection r.2 = _connection st
  /\ (connectionProfile_id connection <> "-1" -> _connection r.2 = _connection st)
  /\ r = (Fulfilled tt, st).
Proof.
  intros Hk r. subst r. by rewrite (updateConnection_no_kernel _ _ _ Hk).
Qed.

(** *** Order of the kernel-config actions *)

Lemma run_actions_cons a rest n w st :
  run_actions (a :: rest) n w st =
  match startAction a n w (logged [ActionInvoked a n] st) with
  | (Fulfilled _, st2) => run_actions rest n w (logged [ActionCompleted a] st2)
  | (Rejected err, st2) => (Rejected err, st2)
  end.
Proof. reflexivity. Qed.

Lemma logged_nil st : logged [] st = st.
Proof. destruct st; unfold logged, set_trace; simpl. by rewrite app_nil_r. Qed.

(** An entry does what [action_effect] says, and nothing else: whatever it
    is called on, the object is afterwards as before but for the log. *)
Lemma startAction_effect a n w st :
  startAction a n w st =
  let e := action_effect w (_session st) (_connection st) n a in
  (e.2, logged e.1 st).
Proof.
  destruct a as [|m]; simpl.
  - unfold runTasksBeforeSessionStart, bind, gets; cbv beta iota.
    destruct (_session st) as [s|]; [| by rewrite logged_nil].
    destruct (_connection st) as [c|]; [| by rewrite logged_nil].
    destruct (isSparkKernel n); [| by rewrite logged_nil].
    destruct (session_kernel s) as [k|]; simpl; [done | by rewrite logged_nil].
  - unfold await. by rewrite logged_nil.
Qed.

Lemma action_effect_own_events w session connection n a :
  Forall (fun e => is_action_event e = false)
    (action_effect w session connection n a).1.
Proof.
  destruct a as [|m]; simpl; [| constructor].
  destruct session as [s|]; [| constructor].
  destruct connection as [c|]; [| constructor].
  destruct (isSparkKernel n); [| constructor].
  destruct (session_kernel s); simpl; by repeat constructor.
Qed.

Lemma run_actions_in_sequence acts n w st :
  run_actions acts n w st =
  let e := in_sequence n (action_effect w (_session st) (_connection st) n) acts in
  (e.2, logged e.1 st).
Proof.
  revert st. induction acts as [|a rest IH]; intros st.
  - simpl. unfold ret. by rewrite logged_nil.
  - rewrite run_actions_cons, startAction_effect. cbn [in_sequence].
    change (_session (logged [ActionInvoked a n] st)) with (_session st).
    change (_connection (logged [ActionInvoked a n] st)) with (_connection st).
    destruct (action_effect w (_session st) (_connection st) n a)
      as [body [[]|err]]; cbn [fst snd].
    + rewrite IH. cbn zeta.
      change (_session (logged [ActionCompleted a]
                (logged body (logged [ActionInvoked a n] st))))
        with (_session st).
      change (_connection (logged [ActionCompleted a]
                (logged body (logged [ActionInvoked a n] st))))
        with (_connection st).
      rewrite !logged_logged. simpl. by rewrite <- ?app_assoc.
    + by rewrite logged_logged.
Qed.

Lemma in_sequence_sequential n effect acts :
  (forall a, Forall (fun e => is_action_event e = false) (effect a).1) ->
  sequential n (is_fulfilled (in_sequence n effect acts).2) acts
    (in_sequence n effect acts).1.
Proof.
  intros Hown. induction acts as [|a rest IH]; simpl; [constructor |].
  pose proof (Hown a) as Ha.
  destruct (effect a) as [body [[]|err]]; simpl in *; by constructor.
Qed.

Lemma install_session_run session n w st :
  install_session session n w st =
  match run_actions (_kernelConfigActions st) n w (set_session (Some session) st) with
  | (Fulfilled _, st2) => (Fulfilled tt, logged [StatusChangedFired session] st2)
  | (Rejected err, st2) => (Rejected err, st2)
  end.
Proof. reflexivity. Qed.

Lemma doChangeKernel_switch options w st s k s' :
  _session st = Some s ->
  session_changeKernel w s options = (Fulfilled k, s') ->
  doChangeKernel options w st =
  match run_actions (_kernelConfigActions st) (Some (kernel_name k)) w
          (set_session (Some s') (logged [ChangeKernelRequested options] st)) with
  | (Fulfilled _, st2) => (Fulfilled (Some k), st2)
  | (Rejected err, st2) => (Rejected err, st2)
  end.
Proof.
  intros Hs Hck. unfold doChangeKernel, bind, gets. cbv beta iota.
  rewrite Hs. unfold emit, modify. by rewrite Hck.
Qed.

Lemma quiet_acquire_session path n w : keeps quiet (acquire_session path n w).
Proof. unfold acquire_session. quiet_tac. Qed.

Lemma set_session_logged s evs st :
  set_session s (logged evs st) = logged evs (set_session s st).
Proof. reflexivity. Qed.

(** *** C9 *)

(** C9. The registered kernel-config actions are executed one after the
    other in registration order.  [runKernelConfigActions] calls the first
    entry, which does what it does (a registered callback settles as the
    backend says, the default entry issues its bootstrap request), and
    calls the next entry only after the promise of the one before has
    fulfilled; an entry whose promise rejects ends the run with that
    rejection, and no later entry is called.  The run leaves the object as
    it was but for the log.  It is reached only after the kernel start or
    switch that triggers it has succeeded: in a session start after
    [startNew] has fulfilled and the session has been stored, followed by
    the status notification alone and only if every entry fulfilled; in a
    kernel switch after the session's [changeKernel] has fulfilled.  In the
    log the call of an entry therefore never falls between the call and the
    completion of another. *)
Theorem kernel_config_actions_run_in_order :
  (forall n w st,
     let r := runKernelConfigActions n w st in
     let e := in_sequence n (action_effect w (_session st) (_connection st) n)
                (_kernelConfigActions st) in
     r.1 = e.2 /\ r.2 = logged e.1 st)
  /\ (forall n w st session st1,
        acquire_session (_path st) n w st = (Fulfilled session, st1) ->
        let r := startSessionInstance n w st in
        let e := in_sequence n
                   (action_effect w (Some session) (_connection st) n)
                   (_kernelConfigActions st) in
        r.1 = e.2
        /\ r.2 = logged (e.1 ++ if is_fulfilled e.2
                                then [StatusChangedFired session] else [])
                   (set_session (Some session) st1))
  /\ (forall options w st s k s',
        _session st = Some s ->
        session_changeKernel w s options = (Fulfilled k, s') ->
        let r := doChangeKernel options w st in
        let e := in_sequence (Some (kernel_name k))
                   (action_effect w (Some s') (_connection st)
                      (Some (kernel_name k)))
                   (_kernelConfigActions st) in
        r.1 = match e.2 with
              | Fulfilled _ => Fulfilled (Some k)
              | Rejected err => Rejected err
              end
        /\ r.2 = logged (ChangeKernelRequested options :: e.1)
                   (set_session (Some s') st))
  /\ (forall n w session connection acts,
        let e := in_sequence n (action_effect w session connection n) acts in
        sequential n (is_fulfilled e.2) acts e.1).
Proof.
  split; [| split; [| split]].
  - intros n w st r e. subst r e.
    unfold runKernelConfigActions, bind, gets. cbv beta iota.
    by rewrite run_actions_in_sequence.
  - intros n w st session st1 Hacq r e. subst r e.
    rewrite startSessionInstance_run, Hacq, install_session_run.
    pose proof (quiet_acquire_session (_path st) n w st) as Hq.
    rewrite Hacq in Hq. destruct Hq as [_ _ _ _ _ _ Hconn Hacts _ _].
    simpl in Hacts, Hconn.
    rewrite run_actions_in_sequence. cbn zeta.
    change (_session (set_session (Some session) st1)) with (Some session).
    change (_connection (set_session (Some session) st1)) with (_connection st1).
    rewrite Hacts, Hconn.
    destruct (in_sequence n (action_effect w (Some session) (_connection st) n)
                (_kernelConfigActions st)) as [log [[]|err]]; cbn [fst snd is_fulfilled].
    + split; [done | by rewrite logged_logged].
    + split; [done | by rewrite app_nil_r].
  - intros options w st s k s' Hs Hck r e. subst r e.
    rewrite (doChangeKernel_switch _ _ _ _ _ _ Hs Hck).
    rewrite run_actions_in_sequence. cbn zeta.
    change (_session (set_session (Some s')
              (logged [ChangeKernelRequested options] st))) with (Some s').
    change (_connection (set_session (Some s')
              (logged [ChangeKernelRequested options] st))) with (_connection st).
    destruct (in_sequence (Some (kernel_name k))
                (action_effect w (Some s') (_connection st) (Some (kernel_name k)))
                (_kernelConfigActions st)) as [log [[]|err]]; cbn [fst snd];
      (split; [done |]); by rewrite set_session_logged, logged_logged.
  - intros n w session connection acts e. subst e.
    apply in_sequence_sequential. intros a. apply action_effect_own_events.
Qed.

(* --------------------------------------------------------------------- *)
(** *** Further properties of the class *)
(* --------------------------------------------------------------------- *)

(** **** What a routine can log *)

#[local] Instance logs_within_preorder K : PreOrder (logs_within K).
Proof.
  split.
  - intros st. exists []. split; [by rewrite app_nil_r | constructor].
  - intros a b c (d1 & E1 & F1) (d2 & E2 & F2).
    exists (d1 ++ d2). split.
    + by rewrite E2, E1, app_assoc.
    + by apply Forall_app.
Qed.

Lemma logs_within_emit K e : K e = true -> keeps (logs_within K) (emit e).
Proof.
  intros H st. exists [e]. split; [reflexivity | by repeat constructor].
Qed.

Lemma logs_within_write K (f : State -> State) :
  (forall st, trace (f st) = trace st) -> keeps (logs_within K) (modify f).
Proof.
  intros H. apply keeps_modify. intros st.
  exists []. split; [by rewrite app_nil_r, H | constructor].
Qed.

Lemma logs_within_weaken K K' st st' :
  (forall e, K e = true -> K' e = true) ->
  logs_within K st st' -> logs_within K' st st'.
Proof.
  intros H (d & E & F). exists d. split; [exact E |].
  eapply Forall_impl; [exact F | exact H].
Qed.

Lemma filter_other_kind K P (d : list Event) :
  (forall e, K e = true -> P e = false) ->
  Forall (fun e => K e = true) d -> List.filter P d = [].
Proof.
  intros H F. induction F as [|e d He _ IH]; [done |].
  simpl. by rewrite (H e He).
Qed.

Ltac within_tac :=
  repeat first
    [ keeps_step
    | apply logs_within_emit; reflexivity
    | apply logs_within_write; intros ?; reflexivity ].

Lemma within_run_actions acts n w :
  keeps (logs_within action_kind) (run_actions acts n w).
Proof.
  induction acts as [|a rest IH]; simpl; [within_tac |].
  keeps_step; [within_tac |].
  keeps_step; [destruct a; simpl; unfold runTasksBeforeSessionStart; within_tac |].
  keeps_step; [within_tac | exact IH].
Qed.

Lemma within_runKernelConfigActions K n w :
  (forall e, action_kind e = true -> K e = true) ->
  keeps (logs_within K) (runKernelConfigActions n w).
Proof.
  intros H. eapply keeps_weaken; [intros a b; by apply logs_within_weaken |].
  unfold runKernelConfigActions.
  keeps_step; [within_tac | apply within_run_actions].
Qed.

Lemma within_startSessionInstance K n w :
  (forall e, start_kind e = true -> K e = true) ->
  keeps (logs_within K) (startSessionInstance n w).
Proof.
  intros H. eapply keeps_weaken; [intros a b; by apply logs_within_weaken |].
  unfold startSessionInstance.
  keeps_step; [within_tac |].
  keeps_step; [within_tac |].
  keeps_step; [within_tac |].
  keeps_step; [| within_tac].
  apply within_runKernelConfigActions. by intros [].
Qed.

Lemma within_doChangeKernel o w :
  keeps (logs_within switch_kind) (doChangeKernel o w).
Proof.
  unfold doChangeKernel.
  keeps_step; [within_tac |].
  keeps_step.
  - keeps_step; [within_tac |].
    destruct (session_changeKernel w i o) as [outcome s'].
    keeps_step; [within_tac |].
    keeps_step; [within_tac |].
    keeps_step; [| within_tac].
    apply within_runKernelConfigActions. by intros [].
  - keeps_step; [| within_tac].
    apply within_startSessionInstance. by intros [].
Qed.

(** **** [shutdown] *)

Lemma shutdown_run w st :
  shutdown w st =
  (match serverManager w with
   | Some sm => sm_stopServer sm
   | None => Fulfilled tt
   end,
   logged
     (match _session st with
      | Some s => if JsString.truthy (session_id s)
                  then [SessionShutdownRequested (session_id s)] else []
      | None => []
      end
      ++ match serverManager w with
         | Some _ => [ServerStopRequested]
         | None => []
         end) st).
Proof.
  assert (Hnil : st = logged [] st).
  { destruct st; unfold logged, set_trace; simpl. by rewrite app_nil_r. }
  unfold shutdown, bind, gets, emit, modify, await, ret.
  destruct (_session st) as [s|]; [destruct (JsString.truthy (session_id s)) |];
    destruct (serverManager w) as [sm|]; simpl;
    try (rewrite <- Hnil; reflexivity);
    try reflexivity;
    (f_equal; destruct st; unfold logged, set_trace; simpl;
     by rewrite <- ?app_assoc).
Qed.

(** X1. [shutdown] is best effort and forgets nothing.  It asks the session
    manager to shut a session down exactly when the object holds a session
    with a non-empty id, and does so whether or not stopping the server then
    succeeds; it rejects exactly when a server manager exists and its
    [stopServer()] rejects, with that error; and it leaves the object as it
    was: the session is still held, and [isReady], [status], the gates and
    the error message are unchanged. *)
Theorem shutdown_best_effort w st :
  let r := shutdown w st in
  (forall id, In (SessionShutdownRequested id) (new_events st r.2) <->
     exists s, _session st = Some s /\ session_id s = id /\ id <> "")
  /\ (forall err, r.1 = Rejected err <->
        exists sm, serverManager w = Some sm /\ sm_stopServer sm = Rejected err)
  /\ _session r.2 = _session st
  /\ isReady r.2 = isReady st
  /\ get_status r.2 = get_status st
  /\ gates r.2 = gates st
  /\ errorMessage r.2 = errorMessage st.
Proof.
  intros r. subst r. rewrite shutdown_run. cbn [fst snd].
  split; [| split; [| by repeat split]].
  - intros id. erewrite new_events_app by reflexivity.
    rewrite in_app_iff. split.
    + intros [H|H].
      * destruct (_session st) as [s|]; [| by destruct H].
        destruct (session_id s) as [|c rest] eqn:E; simpl in H; [by destruct H |].
        destruct H as [[= <-]|[]]. by exists s.
      * destruct (serverManager w); simpl in H; [by destruct H as [|[]] | by destruct H].
    + intros (s & -> & <- & Hne). left.
      destruct (session_id s); [done | by left].
  - intros err. destruct (serverManager w) as [sm|].
    + split; [intros H; by exists sm | by intros (? & [= <-] & ?)].
    + split; [done | by intros (? & ? & ?)].
Qed.

(** **** [status] *)

(** X2. [status] reports "starting" for as long as [isReady] is false,
    whatever session is held; and as [initialize] always ends with
    [isReady] true, after [initialize] the status is the held session's
    status, or "dead" when no session is held (as after a failed start-up). *)
Theorem status_follows_readiness connection w st :
  (isReady st = false -> get_status st = "starting")
  /\ get_status (initialize connection w st).2
     = match _session (initialize connection w st).2 with
       | Some s => session_status s
       | None => "dead"
       end.
Proof.
  split.
  - intros H. unfold get_status. by rewrite H.
  - unfold get_status.
    destruct (initialize_ready connection w st) as [-> _]. reflexivity.
Qed.

(** **** [changeKernel] *)

Lemma changeKernel_run options w st :
  changeKernel options w st =
  match doChangeKernel options w (changeKernel_entry st) with
  | (Fulfilled kernel', st2) => changeKernel_exit (kernel st) kernel' st2
  | (Rejected err, st2) => (Rejected err, st2)
  end.
Proof. by rewrite changeKernel_unfold. Qed.

Lemma changeKernel_exit_no_kernel old st :
  changeKernel_exit old None st = (Rejected (TypeError "isReady"), st).
Proof. reflexivity. Qed.

Lemma changeKernel_exit_ready old k st s :
  kernel_ready k = Fulfilled tt ->
  _session st = Some s ->
  changeKernel_exit old (Some k) st =
  (Fulfilled k,
   logged [GateResolveCalled (_kernelChangeCompleted st);
           KernelChangedFired old (Some k)]
     (set_gates (<[_kernelChangeCompleted st := Resolved]> (gates st))
        (set_isReady (kernel_isReady k) st))).
Proof.
  intros Hr Hs. unfold changeKernel_exit, try_catch, bind; simpl.
  rewrite Hr; simpl. rewrite Hs; simpl.
  f_equal. destruct st; unfold logged, set_trace, set_gates, set_isReady; simpl.
  by rewrite <- app_assoc.
Qed.

Lemma doChangeKernel_run options w st :
  doChangeKernel options w st =
  match _session st with
  | Some s =>
      let st1 := set_session (Some (session_changeKernel w s options).2)
                   (logged [ChangeKernelRequested options] st) in
      match (session_changeKernel w s options).1 with
      | Fulfilled k =>
          match run_actions (_kernelConfigActions st) (Some (kernel_name k)) w st1 with
          | (Fulfilled _, st2) => (Fulfilled (Some k), st2)
          | (Rejected err, st2) => (Rejected err, st2)
          end
      | Rejected err => (Rejected err, st1)
      end
  | None =>
      match startSessionInstance (Some (spec_name options)) w st with
      | (Fulfilled _, st2) => (Fulfilled (kernel st2), st2)
      | (Rejected err, st2) => (Rejected err, st2)
      end
  end.
Proof.
  unfold doChangeKernel, bind, gets. cbv beta iota.
  destruct (_session st) as [s|]; [| reflexivity].
  unfold emit, modify. by destruct (session_changeKernel w s options) as [[k|err] s'].
Qed.

(** A kernel change that yields a kernel leaves a session held. *)
Lemma doChangeKernel_holds_session options w st k' st2 :
  doChangeKernel options w st = (Fulfilled k', st2) ->
  exists s, _session st2 = Some s.
Proof.
  rewrite doChangeKernel_run. destruct (_session st) as [s|].
  - cbv zeta. destruct (session_changeKernel w s options) as [[k|err] s']; [| done].
    cbn [fst snd].
    match goal with |- context [run_actions ?a ?n w ?x] =>
      destruct (logs_only_run_actions a n w x) as (d & E & _);
      destruct (run_actions a n w x) as [[[]|err] st3]
    end; [| done].
    intros [= _ <-]. cbn [snd] in E. rewrite E. by eexists.
  - rewrite startSessionInstance_run.
    destruct (acquire_session (_path st) (Some (spec_name options)) w st)
      as [[session|err] st1]; [| done].
    destruct (install_session_state session (Some (spec_name options)) w st1)
      as (d & E & _).
    destruct (install_session session (Some (spec_name options)) w st1)
      as [[[]|err] st3]; [| done].
    intros [= _ <-]. cbn [snd] in E. rewrite E. by eexists.
Qed.

(** X3. When the internal switch of [changeKernel] fails (the session's
    [changeKernel] or [startNew] rejects, or a kernel-config action
    rejects) or yields no kernel, [changeKernel] rejects (with the error of
    the switch when there is one) and cleans nothing up: [isReady] stays
    false, so [status] reads "starting"; the [kernelChangeCompleted] gate
    allocated at the start of the call is held and still pending, [resolve()]
    was called on no gate, and no kernel-changed event was fired. *)
Theorem changeKernel_early_failure_leaves_gate_pending options w st :
  (forall k, (doChangeKernel options w (changeKernel_entry st)).1
             <> Fulfilled (Some k)) ->
  let r := changeKernel options w st in
  is_fulfilled r.1 = false
  /\ (forall err,
        (doChangeKernel options w (changeKernel_entry st)).1 = Rejected err ->
        r.1 = Rejected err)
  /\ isReady r.2 = false
  /\ get_status r.2 = "starting"
  /\ _kernelChangeCompleted r.2 = fresh (dom (gates st))
  /\ gates r.2 !! _kernelChangeCompleted r.2 = Some Pending
  /\ (forall g, resolve_calls g (new_events st r.2) = 0)
  /\ List.filter is_kernelChanged (new_events st r.2) = [].
Proof.
  intros Hno r. subst r.
  pose proof (quiet_doChangeKernel options w (changeKernel_entry st)) as Hq.
  pose proof (within_doChangeKernel options w (changeKernel_entry st)) as Hw.
  rewrite changeKernel_run.
  destruct (doChangeKernel options w (changeKernel_entry st)) as [[[k|]|err] st2];
    [by destruct (Hno k) | rewrite changeKernel_exit_no_kernel |];
    destruct Hq as [_ Hi _ Hk _ _ _ _ Hg (d & Ht & Hd)];
    destruct Hw as (d' & Ht' & Hd');
    cbn [fst snd] in *;
    unfold get_status, isReady; rewrite Hi, Hk, Hg; simpl;
    repeat split; try done;
    try (by intros ? [= <-]);
    try apply lookup_insert_eq;
    try (intros g; by erewrite new_events_app by exact Ht);
    (erewrite new_events_app by exact Ht';
     eapply filter_other_kind; [| exact Hd']; by intros []).
Qed.

(** X4. When the internal switch yields a kernel [k] whose [ready] promise
    fulfils, [changeKernel] fulfils with [k]; [isReady] becomes [k]'s
    [isReady]; the gate allocated at the start of the call is resolved by
    one [resolve()], and only then one kernel-changed event is fired, which
    is the last thing the call does and carries the kernel held before the
    call as old value and [k] as new value.  The [ready] gate and the error
    message are not touched. *)
Theorem changeKernel_success options w st k st2 :
  doChangeKernel options w (changeKernel_entry st) = (Fulfilled (Some k), st2) ->
  kernel_ready k = Fulfilled tt ->
  let r := changeKernel options w st in
  r.1 = Fulfilled k
  /\ isReady r.2 = kernel_isReady k
  /\ _kernelChangeCompleted r.2 = fresh (dom (gates st))
  /\ resolved r.2 (_kernelChangeCompleted r.2)
  /\ (exists d,
        new_events st r.2
        = d ++ [GateResolveCalled (_kernelChangeCompleted r.2);
                KernelChangedFired (kernel st) (Some k)]
        /\ (forall g, resolve_calls g d = 0)
        /\ List.filter is_kernelChanged d = [])
  /\ _ready r.2 = _ready st
  /\ errorMessage r.2 = errorMessage st.
Proof.
  intros Hdo Hready r. subst r.
  pose proof (quiet_doChangeKernel options w (changeKernel_entry st)) as Hq.
  pose proof (within_doChangeKernel options w (changeKernel_entry st)) as Hw.
  destruct (doChangeKernel_holds_session _ _ _ _ _ Hdo) as (s & Hs).
  rewrite changeKernel_run, Hdo in *.
  rewrite (changeKernel_exit_ready _ _ _ _ Hready Hs).
  destruct Hq as [_ _ Hr Hk _ He _ _ _ (d & Ht & Hd)].
  destruct Hw as (d' & Ht' & Hd').
  cbn [fst snd] in *.
  assert (d' = d) as -> by (rewrite Ht in Ht'; by apply app_inv_head in Ht').
  unfold resolved, isReady, errorMessage; simpl. rewrite Hk; simpl.
  repeat split; try done.
  - apply lookup_insert_eq.
  - exists d. repeat split; [| exact Hd |].
    + apply new_events_app; simpl. by rewrite Ht, <- app_assoc.
    + eapply filter_other_kind; [| exact Hd']. by intros [].
Qed.

(** **** Who writes the error message and the action list *)

#[local] Instance preserves_preorder {A} (f : State -> A) : PreOrder (preserves f).
Proof.
  split; [by intros st | intros a b c H1 H2; unfold preserves in *; congruence].
Qed.

Lemma preserves_write {A} (f : State -> A) (g : State -> State) :
  (forall st, f (g st) = f st) -> keeps (preserves f) (modify g).
Proof. intros H. apply keeps_modify. exact H. Qed.

Lemma preserves_emit {A} (f : State -> A) e :
  (forall t st, f (set_trace t st) = f st) -> keeps (preserves f) (emit e).
Proof. intros H. apply keeps_modify. intros st. apply H. Qed.

Lemma preserves_Deferred_resolve {A} (f : State -> A) g :
  (forall t st, f (set_trace t st) = f st) ->
  (forall gs st, f (set_gates gs st) = f st) ->
  keeps (preserves f) (Deferred_resolve g).
Proof.
  intros Ht Hg st. unfold Deferred_resolve, bind, modify, emit, preserves; simpl.
  by rewrite Ht, Hg.
Qed.

Ltac preserves_tac :=
  repeat first
    [ keeps_step
    | apply preserves_emit; intros ? ?; reflexivity
    | apply preserves_Deferred_resolve; intros ? ?; reflexivity
    | apply preserves_write; intros ?; reflexivity ].

Lemma preserves_errorMessage_of_quiet {A} (m : Async A) :
  keeps quiet m -> keeps (preserves _errorMessage) m.
Proof. apply keeps_weaken. by intros a b []. Qed.

Lemma preserves_actions_of_quiet {A} (m : Async A) :
  keeps quiet m -> keeps (preserves _kernelConfigActions) m.
Proof. apply keeps_weaken. by intros a b []. Qed.

Lemma preserves_changeKernel {A} (f : State -> A) options w st :
  (forall t s, f (set_trace t s) = f s) ->
  (forall gs s, f (set_gates gs s) = f s) ->
  (forall b s, f (set_isReady b s) = f s) ->
  (forall g s, f (set_kernelChangeCompleted g s) = f s) ->
  keeps (preserves f) (doChangeKernel options w) ->
  f (changeKernel options w st).2 = f st.
Proof.
  intros Ht Hg Hi Hk Hdo.
  transitivity (f (changeKernel_entry st));
    [| unfold changeKernel_entry; by rewrite Hi, Hk, Hg].
  rewrite changeKernel_unfold.
  refine (keeps_bind (preserves f) (doChangeKernel options w)
            (changeKernel_exit (kernel st)) Hdo _ (changeKernel_entry st)).
  intros k'. unfold changeKernel_exit.
  repeat first
    [ keeps_step
    | apply preserves_emit; exact Ht
    | apply preserves_Deferred_resolve; [exact Ht | exact Hg]
    | apply preserves_write; intros ?; apply Hi ].
Qed.

Lemma preserves_updateConnection {A} (f : State -> A) connection w :
  (forall c s, f (set_connection c s) = f s) ->
  (forall n, keeps (preserves f) (runKernelConfigActions n w)) ->
  keeps (preserves f) (updateConnection connection w).
Proof.
  intros Hc Hrun. unfold updateConnection.
  keeps_step; [keeps_step |].
  keeps_step; [| keeps_step].
  keeps_step; [apply preserves_write; intros ?; apply Hc |].
  keeps_step; [keeps_step |].
  keeps_step; [| keeps_step].
  keeps_step; [apply Hrun | keeps_step].
Qed.

(** X5. The error message is written by [initialize] alone: [changeKernel],
    [updateConnection], [shutdown] and the [kernelPreference] setter leave
    [errorMessage], and with it [isInErrorState], as they found it, whatever
    their outcome.  A failure of one of them is never recorded in the
    object, and an error recorded by [initialize] is never cleared by
    them. *)
Theorem only_initialize_writes_errorMessage op w st :
  is_Initialize op = false ->
  errorMessage (perform op w st) = errorMessage st
  /\ isInErrorState (perform op w st) = isInErrorState st.
Proof.
  intros Hop.
  assert (H : _errorMessage (perform op w st) = _errorMessage st).
  { destruct op; simpl; [discriminate Hop | | | |].
    - apply preserves_changeKernel; try (intros; reflexivity).
      apply preserves_errorMessage_of_quiet, quiet_doChangeKernel.
    - apply (calm_updateConnection connection w st).
    - apply (quiet_shutdown w st).
    - reflexivity. }
  unfold errorMessage, isInErrorState. by rewrite H.
Qed.

Lemma initialize_push connection w st :
  initialize connection w st =
  initialize_rest connection w
    (set_kernelConfigActions (_kernelConfigActions st ++ [DefaultAction]) st).
Proof. reflexivity. Qed.

Lemma preserves_actions_initialize_rest connection w :
  keeps (preserves _kernelConfigActions) (initialize_rest connection w).
Proof.
  unfold initialize_rest.
  keeps_step; [| preserves_tac].
  keeps_step; [| preserves_tac].
  keeps_step; [preserves_tac |].
  keeps_step.
  { keeps_step. apply preserves_actions_of_quiet, quiet_startServer. }
  keeps_step; [preserves_tac |].
  keeps_step; [preserves_tac |].
  apply preserves_actions_of_quiet, quiet_initializeSession.
Qed.

Lemma actions_after_perform op w st :
  _kernelConfigActions (perform op w st)
  = if is_Initialize op then _kernelConfigActions st ++ [DefaultAction]
    else _kernelConfigActions st.
Proof.
  destruct op; simpl.
  - rewrite initialize_push.
    apply (preserves_actions_initialize_rest connection w).
  - apply preserves_changeKernel; try (intros; reflexivity).
    apply preserves_actions_of_quiet, quiet_doChangeKernel.
  - apply (preserves_updateConnection _kernelConfigActions connection w);
      [intros; reflexivity |].
    intros n. apply preserves_actions_of_quiet, quiet_runKernelConfigActions.
  - apply (quiet_shutdown w st).
  - reflexivity.
Qed.

(** X6. Kernel-config actions are registered by [initialize] alone, one per
    call and always the default one; no other operation adds, removes or
    reorders an action.  Hence in every reachable state every registered
    action is the default action, and an object initialised [n] times
    holds [n] copies of it. *)
Theorem only_default_actions_are_registered st :
  reachable st ->
  Forall (fun a => a = DefaultAction) (_kernelConfigActions st)
  /\ forall op w,
       _kernelConfigActions (perform op w st)
       = if is_Initialize op then _kernelConfigActions st ++ [DefaultAction]
         else _kernelConfigActions st.
Proof.
  intros Hreach. split; [| intros; apply actions_after_perform].
  induction Hreach as [options | st op w _ IH _]; [constructor |].
  rewrite actions_after_perform. destruct (is_Initialize op); [| exact IH].
  apply Forall_app. split; [exact IH | by constructor].
Qed.

(** **** Start-up that stops before a session is started *)

(** Unfolds [initialize] down to the answers of the world. *)
Ltac unfold_initialize :=
  unfold initialize, initializeSession, startServer, try_catch, bind,
    promise_of, modify, gets, await, emit, throw, ret, Deferred_resolve.

Ltac read_new_events :=
  erewrite new_events_app by (simpl; rewrite <- ?app_assoc; reflexivity).

(** X7. When the server does not come up (its [startServer()] rejects, or
    fulfils and leaves [isStarted] false), [initialize] still fulfils and
    records the failure: [errorMessage] is the message of the rejection,
    or "Server did not start for unknown reason".  Nothing further is
    attempted: besides the request to start the server and the two gate
    resolutions nothing is logged (no [startNew], whatever the kernel
    preference), no session is installed, and [isServerStarted] is left as
    it was. *)
Theorem initialize_stops_when_server_fails connection w st :
  server_comes_up w = false ->
  let r := initialize connection w st in
  r.1 = Fulfilled tt
  /\ (exists sm,
        serverManager w = Some sm
        /\ errorMessage r.2
           = Some match sm_startServer sm with
                  | Rejected err => message err
                  | Fulfilled _ => "Server did not start for unknown reason"
                  end)
  /\ new_events st r.2
     = [ServerStartRequested; GateResolveCalled (_ready st);
        GateResolveCalled (_kernelChangeCompleted st)]
  /\ _session r.2 = _session st
  /\ isServerStarted r.2 = isServerStarted st.
Proof.
  intros Hdown r. subst r. unfold server_comes_up in Hdown.
  destruct (serverManager w) as [[started start after stop]|] eqn:Hsm;
    [| discriminate Hdown].
  simpl in Hdown. destruct started; [discriminate Hdown |].
  unfold_initialize. rewrite Hsm; simpl.
  destruct start as [[]|err]; simpl in *.
  - destruct after; [discriminate Hdown |]. simpl.
    repeat split; [by eexists | by read_new_events].
  - repeat split; [by eexists | by read_new_events].
Qed.

(** X8. [initialize] starts a session only when the kernel preference asks
    for it.  With no kernel preference, or one whose [shouldStart] is not
    set, no [startNew] is issued and the held session is left as it was,
    whatever the backend does; and if moreover the server comes up and the
    session manager is or becomes ready, nothing fails: [errorMessage] is
    left as it was and [isServerStarted] is true. *)
Theorem initialize_starts_session_only_on_request connection w st :
  wants_start st = false ->
  let r := initialize connection w st in
  List.filter is_startNew (new_events st r.2) = []
  /\ _session r.2 = _session st
  /\ (server_comes_up w = true -> session_manager_comes_up w = true ->
      errorMessage r.2 = errorMessage st /\ isServerStarted r.2 = Some true).
Proof.
  intros Hpref r. subst r.
  unfold wants_start in Hpref. unfold server_comes_up, session_manager_comes_up.
  unfold_initialize.
  destruct (serverManager w) as [[started start after stop]|]; simpl;
    [destruct started, start as [[]|err1]; simpl; [| | destruct after; simpl |] |];
    destruct (sessionManager_isReady w), (sessionManager_ready w) as [[]|err2];
    simpl;
    destruct (_kernelPreference st) as [[name should]|]; simpl in *;
    try (rewrite Hpref; simpl);
    (split; [by read_new_events | split; [done |]]);
    by intros [=] [=].
Qed.

(** X9. When the server is up but the session manager is not ready and its
    [ready] promise rejects, [initialize] fulfils with the message of that
    rejection in [errorMessage]; no [startNew] is issued, whatever the
    kernel preference, and the held session is left as it was. *)
Theorem initialize_stops_when_session_manager_fails connection w st err :
  server_comes_up w = true ->
  sessionManager_isReady w = false ->
  sessionManager_ready w = Rejected err ->
  let r := initialize connection w st in
  r.1 = Fulfilled tt
  /\ errorMessage r.2 = Some (message err)
  /\ List.filter is_startNew (new_events st r.2) = []
  /\ _session r.2 = _session st
  /\ isServerStarted r.2 = Some true.
Proof.
  intros Hup Hnot Hrej r. subst r. unfold server_comes_up in Hup.
  unfold_initialize.
  rewrite Hnot, Hrej.
  destruct (serverManager w) as [[started start after stop]|]; simpl in *;
    [destruct started, start as [[]|err1], after; simpl in *;
     try discriminate Hup |];
    (repeat split; by read_new_events).
Qed.

(** **** A session start whose first [startNew] succeeds *)

Lemma install_session_log session n w st :
  exists d,
    (install_session session n w st).2 = logged d (set_session (Some session) st)
    /\ Forall (fun e => start_kind e && negb (is_startNew e) && negb (is_warning e)
                        = true) d.
Proof.
  destruct (install_session_state session n w st) as (d & E & _).
  exists d. split; [exact E |].
  assert (H : keeps (logs_within
                (fun e => start_kind e && negb (is_startNew e) && negb (is_warning e)))
              (runKernelConfigActions n w ;; emit (StatusChangedFired session))).
  { keeps_step; [| within_tac].
    apply within_runKernelConfigActions. by intros []. }
  destruct (H (set_session (Some session) st)) as (d' & E' & F).
  change ((runKernelConfigActions n w ;; emit (StatusChangedFired session))
            (set_session (Some session) st))
    with (install_session session n w st) in E'.
  rewrite E in E'. simpl in E'. apply app_inv_head in E'. by subst d'.
Qed.

(** X10. When the first [startNew] of a session start fulfils with a
    session, that session is installed with [defaultKernelLoaded] true
    (the requested kernel was honoured), whether or not the kernel-config
    actions then succeed; exactly one [startNew] is issued, it carries the
    object's path and the requested kernel name, and no warning is
    surfaced. *)
Theorem session_start_honours_request kernelName w st s :
  sessionManager_startNew w 0
    {| opt_path := _path st; opt_kernelName := kernelName |} = Fulfilled s ->
  let r := startSessionInstance kernelName w st in
  _session r.2 = Some (set_defaultKernelLoaded true s)
  /\ kernel r.2 = session_kernel s
  /\ exists d,
       new_events st r.2
       = StartNewRequested {| opt_path := _path st; opt_kernelName := kernelName |} :: d
       /\ List.filter is_startNew d = []
       /\ List.filter is_warning d = [].
Proof.
  intros H r. subst r.
  rewrite startSessionInstance_run, (acquire_session_first _ _ _ _ _ H).
  destruct (install_session_log (set_defaultKernelLoaded true s) kernelName w
              (logged [StartNewRequested
                         {| opt_path := _path st; opt_kernelName := kernelName |}] st))
    as (d & E & F).
  rewrite E. unfold kernel. simpl. repeat split.
  exists d. split; [| split].
  - apply new_events_app; simpl. by rewrite <- app_assoc.
  - eapply filter_other_kind; [| exact F]. by intros [].
  - eapply filter_other_kind; [| exact F]. by intros [].
Qed.

(** **** The bootstrap request in context *)

Lemma truthy_of_spark name :
  JsString.occurs_in "spark" (toLowerCase runtime name) ->
  JsString.truthy name = true.
Proof.
  intros H. destruct name; [| done]. rewrite toLowerCase_empty in H.
  destruct H as (pre & post & E). by destruct pre.
Qed.

Lemma runKernelConfigActions_run n w st :
  runKernelConfigActions n w st = run_actions (_kernelConfigActions st) n w st.
Proof. reflexivity. Qed.

(** With a session that has a kernel, a connection and a spark kernel name,
    the run of the default action is the one bootstrap request. *)
Lemma run_default_action_bootstraps name w st s k c :
  _session st = Some s ->
  session_kernel s = Some k ->
  _connection st = Some c ->
  JsString.occurs_in "spark" (toLowerCase runtime name) ->
  run_actions [DefaultAction] (Some name) w st =
  match kernel_requestExecute w k (doNotCallChangeEndpointParams c) true with
  | Fulfilled _ =>
      (Fulfilled tt,
       logged [ActionInvoked DefaultAction (Some name);
               ExecuteRequested (doNotCallChangeEndpointParams c) true;
               ActionCompleted DefaultAction] st)
  | Rejected err =>
      (Rejected err,
       logged [ActionInvoked DefaultAction (Some name);
               ExecuteRequested (doNotCallChangeEndpointParams c) true] st)
  end.
Proof.
  intros Hs Hk Hc Hspark. apply isSparkKernel_true in Hspark.
  rewrite run_actions_cons. cbn [startAction run_actions].
  unfold runTasksBeforeSessionStart, bind, gets, emit, modify, await, ret.
  cbn [_session _connection logged set_trace]. rewrite Hs, Hc, Hspark, Hk.
  cbv zeta. simpl.
  destruct (kernel_requestExecute w k (doNotCallChangeEndpointParams c) true)
    as [[]|err];
    (f_equal; destruct st; unfold logged, set_trace; simpl;
     by rewrite <- ?app_assoc).
Qed.

(** Without a session, without a connection, or with a name that is not a
    spark kernel's, the run of the default action does nothing. *)
Lemma run_default_action_idle n w st :
  _session st = None \/ _connection st = None \/ isSparkKernel n = false ->
  run_actions [DefaultAction] n w st =
  (Fulfilled tt,
   logged [ActionInvoked DefaultAction n; ActionCompleted DefaultAction] st).
Proof.
  intros H. rewrite run_actions_cons. cbn [startAction run_actions].
  unfold runTasksBeforeSessionStart, bind, gets, emit, modify, ret.
  cbn [_session _connection logged set_trace].
  assert (E : match _session st with
              | Some s =>
                  match _connection st with
                  | Some c => isSparkKernel n
                  | None => false
                  end
              | None => false
              end = false).
  { destruct H as [-> | [-> | ->]]; [done | by destruct (_session st) |].
    by destruct (_session st), (_connection st). }
  destruct (_session st) as [s|], (_connection st) as [c|]; simpl;
    try rewrite E; simpl;
    (f_equal; destruct st; unfold logged, set_trace; simpl;
     by rewrite <- ?app_assoc).
Qed.

Lemma updateConnection_rerun_named w st k :
  kernel st = Some k ->
  JsString.truthy (kernel_name k) = true ->
  updateConnection_rerun w st
  = run_actions (_kernelConfigActions st) (Some (kernel_name k)) w st.
Proof.
  intros Hk Ht. unfold updateConnection_rerun, bind, gets. by rewrite Hk, Ht.
Qed.

(** X11. [updateConnection] re-runs the bootstrap with the connection it
    has just decided to hold.  On an object whose only action is the
    default one and whose active kernel has "spark" in its name, a call
    with a real connection (profile id other than ['-1']) issues exactly
    one execute request, whose command carries the new connection's user,
    password and endpoint; a call with the ['-1'] connection issues it with
    the connection held before, or issues nothing when none was held.  The
    call settles as the request settles. *)
Theorem updateConnection_bootstraps_with_held_connection connection w st s k :
  _kernelConfigActions st = [DefaultAction] ->
  _session st = Some s ->
  session_kernel s = Some k ->
  JsString.occurs_in "spark" (toLowerCase runtime (kernel_name k)) ->
  let held := if bool_decide (connectionProfile_id connection <> "-1")
              then Some connection else _connection st in
  let r := updateConnection connection w st in
  _connection r.2 = held
  /\ match held with
     | Some c =>
         execute_requests (new_events st r.2)
         = [ExecuteRequested (doNotCallChangeEndpointParams c) true]
         /\ r.1 = kernel_requestExecute w k (doNotCallChangeEndpointParams c) true
     | None => execute_requests (new_events st r.2) = [] /\ r.1 = Fulfilled tt
     end.
Proof.
  intros Ha Hs Hk Hspark held r. subst r.
  assert (Hkernel : kernel st = Some k) by (unfold kernel; by rewrite Hs).
  rewrite (updateConnection_with_kernel _ _ _ _ Hkernel). fold held.
  rewrite (updateConnection_rerun_named w (set_connection held st) k Hkernel
             (truthy_of_spark _ Hspark)).
  change (_kernelConfigActions (set_connection held st))
    with (_kernelConfigActions st). rewrite Ha.
  destruct held as [c|] eqn:Hheld.
  - rewrite (run_default_action_bootstraps (kernel_name k) w
               (set_connection (Some c) st) s k c Hs Hk eq_refl Hspark).
    destruct (kernel_requestExecute w k (doNotCallChangeEndpointParams c) true)
      as [[]|err]; simpl; (split; [done |]); (split; [| done]);
      by read_new_events.
  - rewrite run_default_action_idle by (right; by left).
    simpl. split; [done |]. split; [| done]. by read_new_events.
Qed.

(** X12. A kernel switch on a connected session, end to end.  When the
    object holds a session and a connection, its only action is the default
    one, the session's [changeKernel] fulfils with a kernel [k] whose name
    contains "spark" and whose [ready] fulfils, and the bootstrap request
    fulfils, then [changeKernel] fulfils with [k] and does exactly this, in
    this order: ask the session to change kernel, call the default action,
    issue the one silent bootstrap request (on the kernel the session then
    holds), complete the action, resolve the fresh gate, fire the
    kernel-changed event from the kernel held before to [k]. *)
Theorem changeKernel_on_connected_session options w st s s' k k' c :
  _kernelConfigActions st = [DefaultAction] ->
  _session st = Some s ->
  _connection st = Some c ->
  session_changeKernel w s options = (Fulfilled k, s') ->
  session_kernel s' = Some k' ->
  JsString.occurs_in "spark" (toLowerCase runtime (kernel_name k)) ->
  kernel_requestExecute w k' (doNotCallChangeEndpointParams c) true = Fulfilled tt ->
  kernel_ready k = Fulfilled tt ->
  let r := changeKernel options w st in
  r.1 = Fulfilled k
  /\ new_events st r.2
     = [ChangeKernelRequested options;
        ActionInvoked DefaultAction (Some (kernel_name k));
        ExecuteRequested (doNotCallChangeEndpointParams c) true;
        ActionCompleted DefaultAction;
        GateResolveCalled (fresh (dom (gates st)));
        KernelChangedFired (session_kernel s) (Some k)]
  /\ kernel r.2 = Some k'
  /\ isReady r.2 = kernel_isReady k.
Proof.
  intros Ha Hs Hc Hck Hk' Hspark Hreq Hready r. subst r.
  rewrite changeKernel_run, doChangeKernel_run.
  change (_session (changeKernel_entry st)) with (_session st).
  change (_kernelConfigActions (changeKernel_entry st))
    with (_kernelConfigActions st).
  rewrite Hs, Hck, Ha. cbv zeta. cbn [fst snd].
  rewrite (run_default_action_bootstraps (kernel_name k) w
             (set_session (Some s')
                (logged [ChangeKernelRequested options] (changeKernel_entry st)))
             s' k' c eq_refl Hk' Hc Hspark).
  rewrite Hreq.
  erewrite changeKernel_exit_ready by (try exact Hready; reflexivity).
  unfold kernel, isReady. simpl. rewrite Hs.
  repeat split; [| exact Hk'].
  by read_new_events.
Qed.

(** **** Start-up that reaches the session start *)

Lemma initialize_via_session_start connection w st p :
  server_comes_up w = true ->
  session_manager_comes_up w = true ->
  _kernelPreference st = Some p ->
  pref_shouldStart p = true ->
  initialize connection w st =
  let '(outcome, st2) :=
    startSessionInstance (pref_name p) w (session_start_state connection w st) in
  initialize_end outcome st2.
Proof.
  intros Hup Hsm Hp Hs.
  unfold server_comes_up, session_manager_comes_up in *.
  unfold session_start_state, initialize_end, initialize, initializeSession.
  generalize startSessionInstance. intros start.
  unfold startServer, try_catch, bind, promise_of, modify, gets, await, emit,
    throw, ret, Deferred_resolve, logged.
  destruct (serverManager w) as [[started start_ after stop]|]; simpl in Hup |- *;
    [destruct started; simpl in Hup |- *;
     [| destruct start_ as [[]|err1]; simpl in Hup |- *; try discriminate Hup;
        destruct after; simpl in Hup |- *; try discriminate Hup] |];
    destruct (sessionManager_isReady w); simpl in Hsm |- *;
    try (destruct (sessionManager_ready w) as [[]|err2];
         simpl in Hsm |- *; try discriminate Hsm);
    rewrite Hp, Hs;
    match goal with |- context [start ?n w ?x] =>
      by destruct (start n w x) as [[[]|err3] st3]
    end.
Qed.

Lemma initialize_end_fulfilled st :
  initialize_end (Fulfilled tt) st =
  (Fulfilled tt,
   logged [GateResolveCalled (_ready st);
           GateResolveCalled (_kernelChangeCompleted st)]
     (set_gates (<[_kernelChangeCompleted st := Resolved]>
                   (<[_ready st := Resolved]> (gates st)))
        (set_isReady true st))).
Proof.
  unfold initialize_end, Deferred_resolve, emit.
  unfold try_catch, bind, await, modify, gets; simpl.
  f_equal. destruct st; unfold logged, set_trace, set_gates, set_isReady; simpl.
  by rewrite <- ?app_assoc.
Qed.

Lemma initialize_end_rejected err st :
  initialize_end (Rejected err) st =
  (Fulfilled tt,
   logged [GateResolveCalled (_ready st);
           GateResolveCalled (_kernelChangeCompleted st)]
     (set_gates (<[_kernelChangeCompleted st := Resolved]>
                   (<[_ready st := Resolved]> (gates st)))
        (set_isReady true (set_errorMessage (Some (message err)) st)))).
Proof.
  unfold initialize_end, Deferred_resolve, emit.
  unfold try_catch, bind, await, modify, gets; simpl.
  f_equal. destruct st; unfold logged, set_trace, set_gates, set_isReady,
    set_errorMessage; simpl.
  by rewrite <- ?app_assoc.
Qed.

(** What the log of [initialize] holds before the session start. *)
Lemma session_start_state_trace connection w st :
  exists d,
    trace (session_start_state connection w st) = trace st ++ d
    /\ Forall (fun e => e = ServerStartRequested) d.
Proof.
  unfold session_start_state.
  destruct (serverManager w) as [sm|]; [destruct (sm_isStarted sm) |]; simpl;
    first [ exists []; split; [by rewrite app_nil_r | constructor]
          | exists [ServerStartRequested]; split; [done | by repeat constructor] ].
Qed.

Lemma session_start_state_fields connection w st :
  let st1 := session_start_state connection w st in
  _kernelConfigActions st1 = _kernelConfigActions st ++ [DefaultAction]
  /\ _path st1 = _path st
  /\ _connection st1 = connection
  /\ _session st1 = _session st
  /\ _errorMessage st1 = _errorMessage st
  /\ _ready st1 = _ready st
  /\ _kernelChangeCompleted st1 = _kernelChangeCompleted st
  /\ gates st1 = gates st.
Proof.
  unfold session_start_state.
  by destruct (serverManager w) as [sm|]; [destruct (sm_isStarted sm) |].
Qed.

Lemma session_start_with_one_default_action n w st s :
  _kernelConfigActions st = [DefaultAction] ->
  sessionManager_startNew w 0 {| opt_path := _path st; opt_kernelName := n |}
    = Fulfilled s ->
  startSessionInstance n w st =
  match run_actions [DefaultAction] n w
          (set_session (Some (set_defaultKernelLoaded true s))
             (logged [StartNewRequested {| opt_path := _path st; opt_kernelName := n |}]
                st)) with
  | (Fulfilled _, st2) =>
      (Fulfilled tt, logged [StatusChangedFired (set_defaultKernelLoaded true s)] st2)
  | (Rejected err, st2) => (Rejected err, st2)
  end.
Proof.
  intros Ha H.
  rewrite startSessionInstance_run, (acquire_session_first _ _ _ _ _ H).
  rewrite install_session_run.
  change (_kernelConfigActions (logged _ st)) with (_kernelConfigActions st).
  by rewrite Ha.
Qed.

Lemma filter_server_events (P : Event -> bool) d :
  Forall (fun e => e = ServerStartRequested) d ->
  P ServerStartRequested = false ->
  List.filter P d = [].
Proof.
  intros F H. induction F as [|e d -> _ IH]; [done |]. simpl. by rewrite H.
Qed.

(** X13. A first [initialize] against a working backend.  On an object
    with no action registered yet whose kernel preference asks for a start,
    when the server and the session manager come up and [startNew] (with
    the object's path and the preferred kernel name) fulfils with a session,
    and no bootstrap is due (no connection was passed, or the preferred name
    is not a spark kernel's): [initialize] records no error, installs that
    session with [defaultKernelLoaded] true, issues no execute request,
    fires the status-changed event once with the installed session, and
    afterwards [status] is the session's status. *)
Theorem initialize_installs_requested_session connection w st p s :
  _kernelConfigActions st = [] ->
  _kernelPreference st = Some p ->
  pref_shouldStart p = true ->
  server_comes_up w = true ->
  session_manager_comes_up w = true ->
  sessionManager_startNew w 0
    {| opt_path := _path st; opt_kernelName := pref_name p |} = Fulfilled s ->
  connection = None \/ isSparkKernel (pref_name p) = false ->
  let r := initialize connection w st in
  errorMessage r.2 = errorMessage st
  /\ _session r.2 = Some (set_defaultKernelLoaded true s)
  /\ get_status r.2 = session_status s
  /\ execute_requests (new_events st r.2) = []
  /\ List.filter is_statusChanged (new_events st r.2)
     = [StatusChangedFired (set_defaultKernelLoaded true s)].
Proof.
  intros Ha Hp Hs Hup Hsm Hnew Hidle r. subst r.
  rewrite (initialize_via_session_start _ _ _ _ Hup Hsm Hp Hs).
  destruct (session_start_state_trace connection w st) as (d & Ht & Hd).
  destruct (session_start_state_fields connection w st)
    as (Fa & Fp & Fc & Fs & Fe & _).
  rewrite Ha in Fa. rewrite <- Fp in Hnew.
  remember (session_start_state connection w st) as st1 eqn:Hst1.
  clear Hst1.
  rewrite (session_start_with_one_default_action (pref_name p) w st1 s Fa Hnew).
  rewrite run_default_action_idle
    by (right; destruct Hidle as [-> | H];
        [left; exact Fc | by right]).
  rewrite initialize_end_fulfilled.
  unfold get_status, isReady, errorMessage. cbn [snd].
  assert (Hexe : List.filter is_execute d = [])
    by (by apply filter_server_events).
  assert (Hsc : List.filter is_statusChanged d = [])
    by (by apply filter_server_events).
  simpl. repeat split.
  - exact Fe.
  - erewrite new_events_app
      by (simpl; rewrite Ht, <- ?app_assoc; reflexivity).
    unfold execute_requests. by rewrite List.filter_app, Hexe.
  - erewrite new_events_app
      by (simpl; rewrite Ht, <- ?app_assoc; reflexivity).
    by rewrite List.filter_app, Hsc.
Qed.

(** X14. The bootstrap inside a first [initialize].  On an object with no
    action registered yet whose kernel preference asks for a start of a
    kernel with "spark" in its name, when [initialize] is given a
    connection, the server and the session manager come up and [startNew]
    fulfils with a session that has a kernel: the session is installed and
    exactly one execute request is issued, whose command is built from the
    connection passed to [initialize].  If the request fulfils, no error is
    recorded and the status-changed event is fired; if it rejects, the
    session stays installed, the rejection's message becomes
    [errorMessage], and no status-changed event is fired. *)
Theorem initialize_bootstraps_spark_kernel c w st p name s k :
  _kernelConfigActions st = [] ->
  _kernelPreference st = Some p ->
  pref_shouldStart p = true ->
  pref_name p = Some name ->
  JsString.occurs_in "spark" (toLowerCase runtime name) ->
  server_comes_up w = true ->
  session_manager_comes_up w = true ->
  sessionManager_startNew w 0
    {| opt_path := _path st; opt_kernelName := Some name |} = Fulfilled s ->
  session_kernel s = Some k ->
  let r := initialize (Some c) w st in
  let code := doNotCallChangeEndpointParams c in
  _session r.2 = Some (set_defaultKernelLoaded true s)
  /\ execute_requests (new_events st r.2) = [ExecuteRequested code true]
  /\ match kernel_requestExecute w k code true with
     | Fulfilled _ =>
         errorMessage r.2 = errorMessage st
         /\ List.filter is_statusChanged (new_events st r.2)
            = [StatusChangedFired (set_defaultKernelLoaded true s)]
     | Rejected err =>
         errorMessage r.2 = Some (message err)
         /\ List.filter is_statusChanged (new_events st r.2) = []
     end.
Proof.
  intros Ha Hp Hs Hn Hspark Hup Hsm Hnew Hk r code. subst r code.
  rewrite (initialize_via_session_start _ _ _ _ Hup Hsm Hp Hs), Hn.
  destruct (session_start_state_trace (Some c) w st) as (d & Ht & Hd).
  destruct (session_start_state_fields (Some c) w st)
    as (Fa & Fp & Fc & Fs & Fe & _).
  rewrite Ha in Fa. rewrite <- Fp in Hnew.
  remember (session_start_state (Some c) w st) as st1 eqn:Hst1.
  clear Hst1.
  rewrite (session_start_with_one_default_action (Some name) w st1 s Fa Hnew).
  rewrite (run_default_action_bootstraps name w
             (set_session (Some (set_defaultKernelLoaded true s))
                (logged [StartNewRequested
                           {| opt_path := _path st1; opt_kernelName := Some name |}]
                   st1))
             (set_defaultKernelLoaded true s) k c eq_refl Hk Fc Hspark).
  assert (Hexe : List.filter is_execute d = [])
    by (by apply filter_server_events).
  assert (Hsc : List.filter is_statusChanged d = [])
    by (by apply filter_server_events).
  destruct (kernel_requestExecute w k (doNotCallChangeEndpointParams c) true)
    as [[]|err];
    [rewrite initialize_end_fulfilled | rewrite initialize_end_rejected];
    unfold errorMessage; cbn [snd]; simpl;
    (repeat split; try exact Fe;
     erewrite new_events_app
       by (simpl; rewrite Ht, <- ?app_assoc; reflexivity);
     unfold execute_requests; rewrite List.filter_app;
     first [by rewrite Hexe | by rewrite Hsc]).
Qed.

(** **** Gates never re-block *)

#[local] Instance stays_resolved_preorder : PreOrder stays_resolved.
Proof. split; [by intros st g | intros a b c H1 H2 g Hg; by apply H2, H1]. Qed.

Lemma stays_resolved_write (f : State -> State) :
  (forall st, gates (f st) = gates st) -> keeps stays_resolved (modify f).
Proof.
  intros H. apply keeps_modify. intros st g. unfold resolved. by rewrite H.
Qed.

Lemma stays_resolved_emit e : keeps stays_resolved (emit e).
Proof. apply stays_resolved_write. intros; reflexivity. Qed.

Lemma stays_resolved_Deferred_resolve g : keeps stays_resolved (Deferred_resolve g).
Proof.
  intros st g'. unfold Deferred_resolve, bind, modify, emit, resolved; simpl.
  intros H. rewrite lookup_insert. by case_decide.
Qed.

Lemma stays_resolved_of_quiet {A} (m : Async A) :
  keeps quiet m -> keeps stays_resolved m.
Proof.
  apply keeps_weaken. intros a b [] g. unfold resolved. by rewrite q_gates0.
Qed.

Lemma stays_resolved_entry st : stays_resolved st (changeKernel_entry st).
Proof.
  intros g H. unfold resolved in *.
  change (<[fresh (dom (gates st)) := Pending]> (gates st) !! g = Some Resolved).
  rewrite lookup_insert_ne; [exact H |].
  intros <-. assert (fresh (dom (gates st)) ∈ dom (gates st)) as Hin
    by (apply elem_of_dom; by eexists).
  by apply is_fresh in Hin.
Qed.

Ltac stays_tac :=
  repeat first
    [ keeps_step
    | apply stays_resolved_emit
    | apply stays_resolved_Deferred_resolve
    | apply stays_resolved_write; intros ?; reflexivity ].

Lemma stays_resolved_perform op w st : stays_resolved st (perform op w st).
Proof.
  destruct op; simpl.
  - rewrite initialize_unfold.
    match goal with |- stays_resolved st (?m st).2 =>
      cut (keeps stays_resolved m); [intros H; apply H |]
    end.
    keeps_step; [| stays_tac].
    keeps_step; [| stays_tac].
    eapply keeps_weaken; [| apply calm_initialize_body].
    intros a b [] g. unfold resolved. by rewrite c_gates0.
  - etransitivity; [apply stays_resolved_entry |].
    rewrite changeKernel_unfold.
    refine (keeps_bind stays_resolved (doChangeKernel options w)
              (changeKernel_exit (kernel st))
              (stays_resolved_of_quiet _ (quiet_doChangeKernel options w)) _
              (changeKernel_entry st)).
    intros k'. unfold changeKernel_exit. stays_tac.
  - intros g. unfold resolved.
    by destruct (calm_updateConnection connection w st) as [_ _ _ _ -> _].
  - intros g. unfold resolved.
    by destruct (quiet_shutdown w st) as [_ _ _ _ _ _ _ _ -> _].
  - by intros g.
Qed.

Lemma ready_gate_kept op w st : _ready (perform op w st) = _ready st.
Proof.
  destruct op; simpl.
  - apply (steady_initialize connection w st).
  - apply (steady_after_entry options w st).
  - apply (calm_updateConnection connection w st).
  - apply (quiet_shutdown w st).
  - reflexivity.
Qed.

(** X15. A resolved gate never re-blocks.  Whatever operation is performed
    and whatever the backend answers, every gate that was resolved before
    is resolved afterwards (a [changeKernel] allocates a new gate and
    leaves the old ones as they are), and the object keeps the very same
    [ready] gate for its whole life.  So once [ready] has resolved, it is
    resolved in every later state. *)
Theorem resolved_gates_stay_resolved st ops :
  let st' := fold_left (fun s '(op, w) => perform op w s) ops st in
  (forall g, resolved st g -> resolved st' g)
  /\ _ready st' = _ready st
  /\ (resolved st (_ready st) -> resolved st' (_ready st')).
Proof.
  revert st. induction ops as [|[op w] ops IH]; intros st; [by simpl |].
  simpl. destruct (IH (perform op w st)) as (H1 & H2 & _).
  assert (H3 : forall g, resolved st g ->
            resolved (fold_left (fun s '(op0, w0) => perform op0 w0 s) ops
                        (perform op w st)) g).
  { intros g Hg. by apply H1, stays_resolved_perform. }
  split; [exact H3 |]. rewrite H2, ready_gate_kept. split; [done |]. apply H3.
Qed.

(* --------------------------------------------------------------------- *)
(** *** Properties of [NotebookInputModel] *)
(* --------------------------------------------------------------------- *)

Lemma setDirty_step d m :
  isDirty (setDirty d m) = d
  /\ (isDirty m = d -> setDirty d m = m)
  /\ (isDirty m <> d ->
      onDidChangeDirty_fired (setDirty d m) = S (onDidChangeDirty_fired m)
      /\ d = negb (isDirty m)).
Proof.
  unfold setDirty, isDirty. case_bool_decide as H; simpl.
  - split; [exact H |]. split; [done |]. intros Hne. by destruct Hne.
  - split; [done |]. split; [intros E; by destruct H |].
    intros _. split; [done |]. by destruct d, (dirty m).
Qed.

Lemma last_cons_default {A} (l : list A) (d x : A) :
  List.last (d :: l) x = List.last l d.
Proof.
  revert d x. induction l as [|y ys IH]; intros d x; [done |].
  change (List.last (d :: y :: ys) x) with (List.last (y :: ys) x).
  by rewrite (IH y x), (IH y d).
Qed.

(** X16. [setDirty] fires the dirty-changed event exactly when the flag
    changes.  After any run of [setDirty] calls the model's [isDirty] is the
    last value set; the event was fired at most once per call; and the
    flag differs from its value before the run exactly when the event was
    fired an odd number of times.  The handle and the outcome of [save] are
    not affected. *)
Theorem setDirty_fires_on_change ds m :
  let m' := setDirty_all ds m in
  let fired := onDidChangeDirty_fired m' - onDidChangeDirty_fired m in
  isDirty m' = List.last ds (isDirty m)
  /\ onDidChangeDirty_fired m <= onDidChangeDirty_fired m'
  /\ fired <= length ds
  /\ isDirty m' = (if Nat.even fired then isDirty m else negb (isDirty m))
  /\ handle m' = handle m
  /\ save m' = save m.
Proof.
  revert m. induction ds as [|d ds IH]; intros m.
  - simpl. rewrite Nat.sub_diag. by repeat split.
  - cbn [setDirty_all fold_left length] in *.
    destruct (IH (setDirty d m)) as (H1 & H2 & H3 & H4 & H5 & H6).
    fold (setDirty_all ds (setDirty d m)) in *.
    destruct (setDirty_step d m) as (S1 & S2 & S3).
    pose proof (last_cons_default ds d (isDirty m)) as Hlast.
    rewrite Hlast. rewrite S1 in H1, H4.
    destruct (bool_decide (isDirty m = d)) eqn:E.
    + apply bool_decide_eq_true_1 in E. rewrite (S2 E) in *. subst d.
      repeat split; try done. lia.
    + apply bool_decide_eq_false_1 in E. destruct (S3 E) as [Sf Sd].
      assert (Hh : handle (setDirty d m) = handle m
                   /\ save (setDirty d m) = save m).
      { unfold setDirty, save. by case_bool_decide. }
      destruct Hh as [Hh Hs]. rewrite Sf in *.
      repeat split; try lia; try congruence.
      replace (onDidChangeDirty_fired (setDirty_all ds (setDirty d m))
               - onDidChangeDirty_fired m)
        with (S (onDidChangeDirty_fired (setDirty_all ds (setDirty d m))
                 - S (onDidChangeDirty_fired m))) by lia.
      rewrite H4, Sd.
      rewrite Nat.even_succ, <- Nat.negb_even.
      match goal with |- context [Nat.even ?x] => destruct (Nat.even x) end;
        simpl; by rewrite ?negb_involutive.
Qed.

End ClientSession.

(* ===================================================================== *)
(** ** The theorems at concrete inputs *)
(* ===================================================================== *)

(** Each theorem above that has premises is applied here to concrete
    collaborators, with [livy_url] and [uri_as_is] for the two library
    helpers and [ascii_runtime] for the runtime. *)

Lemma initialize_always_resolves_witness :
  reachable livy_url uri_as_is ascii_runtime (new_ClientSession notebook)
  /\ (initialize livy_url uri_as_is ascii_runtime None fine_world (new_ClientSession notebook)).1
     = Fulfilled tt.
Proof.
  split; [apply reach_new |].
  apply (initialize_always_resolves livy_url uri_as_is ascii_runtime None fine_world
           (new_ClientSession notebook)).
  apply reach_new.
Defined.

Lemma changeKernel_resolves_gate_before_rethrow_witness :
  let w := world_of None (Fulfilled (session_with spark3kernel))
             (Fulfilled (session_with python3)) in
  let st := new_ClientSession notebook in
  let spec := {| spec_name := "spark3kernel" |} in
  kernel_ready spark3kernel = Rejected (Error "kernel died")
  /\ (changeKernel livy_url uri_as_is ascii_runtime spec w st).1 = Rejected (Error "kernel died")
  /\ resolved (changeKernel livy_url uri_as_is ascii_runtime spec w st).2
       (_kernelChangeCompleted (changeKernel livy_url uri_as_is ascii_runtime spec w st).2).
Proof.
  intros w st spec. split; [reflexivity |].
  assert (H := changeKernel_resolves_gate_before_rethrow livy_url uri_as_is ascii_runtime
                 spec w st spark3kernel (Error "kernel died")
                 (doChangeKernel livy_url uri_as_is ascii_runtime spec w (changeKernel_entry st)).2).
  destruct H as (H1 & _ & _ & H4 & _).
  - vm_compute. reflexivity.
  - reflexivity.
  - split; [exact H1 | exact H4].
Defined.

Lemma kernel_not_found_falls_back_witness :
  let w := world_of None (Rejected (status_error 501))
             (Fulfilled (session_with python3)) in
  let st := new_ClientSession notebook in
  sessionManager_startNew w 0
    {| opt_path := _path st; opt_kernelName := Some "missingKernel" |}
  = Rejected (status_error 501)
  /\ _session (startSessionInstance livy_url uri_as_is ascii_runtime (Some "missingKernel") w st).2
     = Some (set_defaultKernelLoaded false (session_with python3)).
Proof.
  intros w st. split; [reflexivity |].
  destruct (kernel_not_found_falls_back livy_url uri_as_is ascii_runtime
              (Some "missingKernel") w st (status_error 501) eq_refl)
    as (H & _ & _).
  destruct H as (_ & H & _).
  - exists {| status := 501 |}. split; reflexivity.
  - apply H. reflexivity.
Defined.

Lemma default_action_bootstrap_witness :
  let st := set_connection (Some connection_hup)
              (set_session (Some (session_with spark3kernel))
                 (new_ClientSession notebook)) in
  runTasksBeforeSessionStart livy_url uri_as_is ascii_runtime (Some "Spark3Kernel") fine_world st
  = (Fulfilled tt,
     logged [ExecuteRequested
               "%_do_not_call_change_endpoint --username=u --password=p --server=https://h:8443/gateway/default/livy/v1/ --auth=Basic_Access"
               true] st).
Proof.
  intros st.
  destruct (default_action_bootstrap livy_url uri_as_is ascii_runtime (Some "Spark3Kernel")
              fine_world st) as (H & _).
  apply (H (session_with spark3kernel) spark3kernel connection_hup "Spark3Kernel");
    try reflexivity.
  exists "", "3kernel". reflexivity.
Defined.

Lemma isReady_iff_ready_resolved_witness :
  let st := perform livy_url uri_as_is ascii_runtime (Initialize None) fine_world
              (new_ClientSession notebook) in
  reachable_by livy_url uri_as_is ascii_runtime not_ChangeKernel st
  /\ (isReady st = true <-> resolved st (_ready st)).
Proof.
  intros st.
  assert (H : reachable_by livy_url uri_as_is ascii_runtime not_ChangeKernel st).
  { apply reach_step; [apply reach_new | reflexivity]. }
  split; [exact H |].
  apply (isReady_iff_ready_resolved livy_url uri_as_is ascii_runtime st H).
Defined.

Lemma initialize_server_did_not_start_witness :
  let w := world_of (Some stuck_server) (Fulfilled (session_with python3))
             (Fulfilled (session_with python3)) in
  let r := initialize livy_url uri_as_is ascii_runtime None w (new_ClientSession notebook) in
  r.1 = Fulfilled tt
  /\ isReady r.2 = true
  /\ isInErrorState r.2 = true
  /\ errorMessage r.2 = Some "Server did not start for unknown reason".
Proof.
  intros w r.
  destruct (initialize_server_did_not_start livy_url uri_as_is ascii_runtime None w stuck_server
              (new_ClientSession notebook))
    as (H1 & H2 & H3 & H4 & _); try reflexivity.
  repeat split; assumption.
Defined.

Lemma updateConnection_without_kernel_is_noop_witness :
  let st1 := (initialize livy_url uri_as_is ascii_runtime None fine_world
                (new_ClientSession notebook)).2 in
  let calls := [(connection_hup, fine_world); (connection_unset, fine_world)] in
  kernel st1 = None
  /\ (updateConnection_all livy_url uri_as_is ascii_runtime calls st1).2 = st1.
Proof.
  intros st1 calls. split; [reflexivity |].
  apply (updateConnection_without_kernel_is_noop livy_url uri_as_is ascii_runtime None
           fine_world (new_ClientSession notebook) calls).
  reflexivity.
Defined.

Lemma updateConnection_sentinel_witness :
  let st := set_connection (Some connection_hup)
              (set_session (Some (session_with python3))
                 (new_ClientSession notebook)) in
  _connection (updateConnection livy_url uri_as_is ascii_runtime connection_unset fine_world st).2
  = Some connection_hup
  /\ _connection
       (updateConnection livy_url uri_as_is ascii_runtime connection_hup fine_world
          (set_connection None st)).2
     = Some connection_hup.
Proof.
  intros st. split.
  - apply (updateConnection_sentinel livy_url uri_as_is ascii_runtime connection_unset
             fine_world st).
    reflexivity.
  - apply (updateConnection_sentinel livy_url uri_as_is ascii_runtime connection_hup
             fine_world (set_connection None st)).
    + intros E. discriminate E.
    + intros E. discriminate E.
Defined.

Lemma kernel_config_actions_run_in_order_witness :
  let w := world_yielding pysparkkernel (Rejected (Error "livy unreachable")) in
  let acts := [RegisteredAction 7; DefaultAction; RegisteredAction 8] in
  let st := set_kernelConfigActions acts
              (connected_to python3 (Some connection_hup)) in
  let spec := {| spec_name := "pysparkkernel" |} in
  let r := doChangeKernel livy_url uri_as_is ascii_runtime spec w st in
  r.1 = Rejected (Error "livy unreachable")
  /\ new_events st r.2
     = [ChangeKernelRequested spec;
        ActionInvoked (RegisteredAction 7) (Some "pysparkkernel");
        ActionCompleted (RegisteredAction 7);
        ActionInvoked DefaultAction (Some "pysparkkernel");
        ExecuteRequested
          "%_do_not_call_change_endpoint --username=u --password=p --server=https://h:8443/gateway/default/livy/v1/ --auth=Basic_Access"
          true].
Proof.
  intros w acts st spec r.
  destruct kernel_config_actions_run_in_order with
    (getLivyUrl := livy_url) (URI_parse_toString := uri_as_is)
    (runtime := ascii_runtime) as (_ & _ & H & _).
  destruct (H spec w st (session_with python3) pysparkkernel
              (session_with pysparkkernel) eq_refl eq_refl) as (H1 & H2).
  split.
  - etransitivity; [exact H1 | reflexivity].
  - unfold r. rewrite H2. reflexivity.
Defined.

Lemma updateConnection_without_kernel_keeps_connection_witness :
  let st := set_connection (Some connection_unset) (new_ClientSession notebook) in
  kernel st = None
  /\ _connection (updateConnection livy_url uri_as_is ascii_runtime connection_hup fine_world st).2
     = Some connection_unset.
Proof.
  intros st. split; [reflexivity |].
  destruct (updateConnection_without_kernel_keeps_connection livy_url uri_as_is ascii_runtime
              connection_hup fine_world st eq_refl) as (H & _).
  exact H.
Defined.

(* ===================================================================== *)
(** ** Where the stated claims fail *)
(* ===================================================================== *)

(** C3 as stated: the fallback is tied to an HTTP "not found" status.  The
    HTTP status "Not Found" is 404; a first [startNew] rejected with 404 is
    re-thrown after the one request: no warning, no second [startNew], no
    session. *)
Lemma status_404_is_rethrown :
  let err := status_error HTTP_NOT_FOUND in
  let w := world_of None (Rejected err) (Fulfilled (session_with python3)) in
  let st := new_ClientSession notebook in
  let first := {| opt_path := _path st; opt_kernelName := Some "missingKernel" |} in
  let r := startSessionInstance livy_url uri_as_is ascii_runtime (Some "missingKernel") w st in
  sessionManager_startNew w 0 first = Rejected err
  /\ r = (Rejected err, logged [StartNewRequested first] st)
  /\ List.filter is_warning (new_events st r.2) = []
  /\ _session r.2 = None.
Proof. vm_compute. repeat split. Qed.

(** C5 as stated: after [initialize] the [ready] gate is resolved; a
    [changeKernel] whose session start fails then leaves [isReady] false
    for good.  The state is reachable and the equivalence fails in it. *)
Lemma changeKernel_breaks_isReady_iff_resolved :
  let failing := world_of None (Rejected (status_error 500))
                   (Fulfilled (session_with python3)) in
  let st := perform livy_url uri_as_is ascii_runtime
              (ChangeKernel {| spec_name := "python3" |}) failing
              (perform livy_url uri_as_is ascii_runtime (Initialize None) fine_world
                 (new_ClientSession notebook)) in
  reachable livy_url uri_as_is ascii_runtime st
  /\ isReady st = false
  /\ resolved st (_ready st)
  /\ ~ (isReady st = true <-> resolved st (_ready st)).
Proof.
  intros failing st.
  assert (Hres : resolved st (_ready st)) by (vm_compute; reflexivity).
  assert (Hnot : isReady st = false) by (vm_compute; reflexivity).
  split; [| split; [exact Hnot | split; [exact Hres |]]].
  - apply reach_step; [| reflexivity].
    apply reach_step; [apply reach_new | reflexivity].
  - intros [_ H]. rewrite (H Hres) in Hnot. discriminate Hnot.
Qed.

(* ===================================================================== *)
(** ** A session start runs the actions with the requested kernel name *)
(* ===================================================================== *)

(** C4. [doChangeKernel] (line 251) and [updateConnection] (line 285) run
    the kernel-config actions with the name of the kernel the session
    holds; [startSessionInstance] (line 127) runs them with the name that
    was asked for, also when the kernel it got is another one.  (1) A start
    asked for "sparkmissing" is answered 501 and falls back to the default
    kernel "python3", with the warning that the default kernel is used
    instead: the active kernel's name has no "spark" in it, and the
    bootstrap request is issued to it all the same; an [updateConnection]
    with the same connection right afterwards issues none.  (2) A start
    that names no kernel and gets "pysparkkernel" from the backend: session
    and connection are held, the active kernel's name contains "spark", and
    no request is issued; an [updateConnection] with the same connection
    right afterwards issues it. *)
Lemma session_start_bootstraps_by_requested_name :
  let bootstrap :=
    ExecuteRequested
      "%_do_not_call_change_endpoint --username=u --password=p --server=https://h:8443/gateway/default/livy/v1/ --auth=Basic_Access"
      true in
  (let w := world_of None (Rejected (status_error 501))
              (Fulfilled (session_with python3)) in
   let st := fresh_preferring (Some "sparkmissing") in
   let r := initialize livy_url uri_as_is ascii_runtime (Some connection_hup) w st in
   let r' := updateConnection livy_url uri_as_is ascii_runtime connection_hup w r.2 in
   kernel r.2 = Some python3
   /\ isSparkKernel ascii_runtime (Some (kernel_name python3)) = false
   /\ _connection r.2 = Some connection_hup
   /\ List.filter is_warning (new_events st r.2)
      = [Warned "Kernel sparkmissing was not found. The default kernel will be used instead."]
   /\ execute_requests (new_events st r.2) = [bootstrap]
   /\ execute_requests (new_events r.2 r'.2) = [])
  /\ (let w := world_of None (Fulfilled (session_with pysparkkernel))
                 (Fulfilled (session_with python3)) in
      let st := fresh_preferring None in
      let r := initialize livy_url uri_as_is ascii_runtime (Some connection_hup) w st in
      let r' := updateConnection livy_url uri_as_is ascii_runtime connection_hup w r.2 in
      r.1 = Fulfilled tt
      /\ errorMessage r.2 = None
      /\ kernel r.2 = Some pysparkkernel
      /\ isSparkKernel ascii_runtime (Some (kernel_name pysparkkernel)) = true
      /\ _connection r.2 = Some connection_hup
      /\ execute_requests (new_events st r.2) = []
      /\ execute_requests (new_events r.2 r'.2) = [bootstrap]).
Proof. vm_compute. repeat split. Qed.

(* ===================================================================== *)
(** ** The further properties at concrete inputs *)
(* ===================================================================== *)

Lemma changeKernel_early_failure_leaves_gate_pending_witness :
  let w := world_of None (Rejected (status_error 500))
             (Fulfilled (session_with python3)) in
  let st := new_ClientSession notebook in
  let spec := {| spec_name := "python3" |} in
  let r := changeKernel livy_url uri_as_is ascii_runtime spec w st in
  r.1 = Rejected (status_error 500)
  /\ gates r.2 !! _kernelChangeCompleted r.2 = Some Pending.
Proof.
  intros w st spec r.
  destruct (changeKernel_early_failure_leaves_gate_pending livy_url uri_as_is ascii_runtime
              spec w st) as (_ & H2 & _ & _ & _ & H6 & _).
  - intros k H. vm_compute in H. discriminate H.
  - split; [apply H2; reflexivity | exact H6].
Defined.

Lemma changeKernel_success_witness :
  let st := new_ClientSession notebook in
  let spec := {| spec_name := "python3" |} in
  let r := changeKernel livy_url uri_as_is ascii_runtime spec fine_world st in
  kernel_ready python3 = Fulfilled tt
  /\ r.1 = Fulfilled python3
  /\ isReady r.2 = true.
Proof.
  intros st spec r. split; [reflexivity |].
  destruct (changeKernel_success livy_url uri_as_is ascii_runtime spec fine_world st python3
              (doChangeKernel livy_url uri_as_is ascii_runtime spec fine_world
                 (changeKernel_entry st)).2)
    as (H1 & H2 & _).
  - vm_compute. reflexivity.
  - reflexivity.
  - split; [exact H1 | exact H2].
Defined.

Lemma only_initialize_writes_errorMessage_witness :
  let st := (initialize livy_url uri_as_is ascii_runtime None
               (world_of (Some stuck_server) (Fulfilled (session_with python3))
                  (Fulfilled (session_with python3)))
               (new_ClientSession notebook)).2 in
  is_Initialize Shutdown = false
  /\ errorMessage (perform livy_url uri_as_is ascii_runtime Shutdown fine_world st)
     = errorMessage st.
Proof.
  intros st. split; [reflexivity |].
  apply (only_initialize_writes_errorMessage livy_url uri_as_is ascii_runtime Shutdown
           fine_world st).
  reflexivity.
Defined.

Lemma only_default_actions_are_registered_witness :
  let st := perform livy_url uri_as_is ascii_runtime (Initialize None) fine_world
              (perform livy_url uri_as_is ascii_runtime (Initialize None) fine_world
                 (new_ClientSession notebook)) in
  reachable livy_url uri_as_is ascii_runtime st
  /\ Forall (fun a => a = DefaultAction) (_kernelConfigActions st).
Proof.
  intros st.
  assert (H : reachable livy_url uri_as_is ascii_runtime st).
  { apply reach_step; [| reflexivity].
    apply reach_step; [apply reach_new | reflexivity]. }
  split; [exact H |].
  apply (only_default_actions_are_registered livy_url uri_as_is ascii_runtime st H).
Defined.

Lemma initialize_stops_when_server_fails_witness :
  let w := world_of (Some stuck_server) (Fulfilled (session_with python3))
             (Fulfilled (session_with python3)) in
  let st := fresh_preferring (Some "python3") in
  server_comes_up w = false
  /\ _session (initialize livy_url uri_as_is ascii_runtime None w st).2 = None.
Proof.
  intros w st. split; [reflexivity |].
  destruct (initialize_stops_when_server_fails livy_url uri_as_is ascii_runtime None w st)
    as (_ & _ & _ & H & _); [reflexivity | exact H].
Defined.

Lemma initialize_starts_session_only_on_request_witness :
  let st := new_ClientSession notebook in
  wants_start st = false
  /\ _session (initialize livy_url uri_as_is ascii_runtime None fine_world st).2 = None.
Proof.
  intros st. split; [reflexivity |].
  destruct (initialize_starts_session_only_on_request livy_url uri_as_is ascii_runtime None
              fine_world st) as (_ & H & _); [reflexivity | exact H].
Defined.

Lemma initialize_stops_when_session_manager_fails_witness :
  let w := world_with_unready_session_manager (Error "not ready") in
  let st := fresh_preferring (Some "python3") in
  server_comes_up w = true
  /\ sessionManager_isReady w = false
  /\ errorMessage (initialize livy_url uri_as_is ascii_runtime None w st).2 = Some "not ready".
Proof.
  intros w st. split; [reflexivity |]. split; [reflexivity |].
  destruct (initialize_stops_when_session_manager_fails livy_url uri_as_is ascii_runtime None
              w st (Error "not ready")) as (_ & H & _);
    [reflexivity | reflexivity | reflexivity | exact H].
Defined.

Lemma session_start_honours_request_witness :
  let st := new_ClientSession notebook in
  sessionManager_startNew fine_world 0
    {| opt_path := _path st; opt_kernelName := Some "python3" |}
  = Fulfilled (session_with python3)
  /\ _session (startSessionInstance livy_url uri_as_is ascii_runtime (Some "python3")
                 fine_world st).2
     = Some (set_defaultKernelLoaded true (session_with python3)).
Proof.
  intros st. split; [reflexivity |].
  destruct (session_start_honours_request livy_url uri_as_is ascii_runtime (Some "python3")
              fine_world st (session_with python3) eq_refl) as (H & _).
  exact H.
Defined.

Lemma updateConnection_bootstraps_with_held_connection_witness :
  let st := connected_to pysparkkernel None in
  let r := updateConnection livy_url uri_as_is ascii_runtime connection_hup fine_world st in
  JsString.occurs_in "spark" (toLowerCase ascii_runtime (kernel_name pysparkkernel))
  /\ execute_requests (new_events st r.2)
     = [ExecuteRequested
          "%_do_not_call_change_endpoint --username=u --password=p --server=https://h:8443/gateway/default/livy/v1/ --auth=Basic_Access"
          true].
Proof.
  intros st r.
  assert (Hs : JsString.occurs_in "spark"
                 (toLowerCase ascii_runtime (kernel_name pysparkkernel)))
    by (exists "py", "kernel"; reflexivity).
  split; [exact Hs |].
  destruct (updateConnection_bootstraps_with_held_connection livy_url uri_as_is ascii_runtime
              connection_hup fine_world st (session_with pysparkkernel)
              pysparkkernel eq_refl eq_refl eq_refl Hs) as (_ & H & _).
  exact H.
Defined.

Lemma changeKernel_on_connected_session_witness :
  let w := world_yielding pysparkkernel (Fulfilled tt) in
  let st := connected_to python3 (Some connection_hup) in
  let spec := {| spec_name := "pysparkkernel" |} in
  let r := changeKernel livy_url uri_as_is ascii_runtime spec w st in
  kernel_ready pysparkkernel = Fulfilled tt
  /\ r.1 = Fulfilled pysparkkernel
  /\ kernel r.2 = Some pysparkkernel.
Proof.
  intros w st spec r. split; [reflexivity |].
  destruct (changeKernel_on_connected_session livy_url uri_as_is ascii_runtime spec w st
              (session_with python3) (session_with pysparkkernel)
              pysparkkernel pysparkkernel connection_hup)
    as (H1 & _ & H3 & _);
    [reflexivity | reflexivity | reflexivity | reflexivity | reflexivity
    | exists "py", "kernel"; reflexivity | reflexivity | reflexivity
    | split; [exact H1 | exact H3]].
Defined.

Lemma initialize_installs_requested_session_witness :
  let st := fresh_preferring (Some "python3") in
  let r := initialize livy_url uri_as_is ascii_runtime (Some connection_hup) fine_world st in
  server_comes_up fine_world = true
  /\ isSparkKernel ascii_runtime (Some "python3") = false
  /\ errorMessage r.2 = None
  /\ get_status r.2 = "idle".
Proof.
  intros st r. split; [reflexivity |]. split; [reflexivity |].
  destruct (initialize_installs_requested_session livy_url uri_as_is ascii_runtime
              (Some connection_hup) fine_world st
              {| pref_name := Some "python3"; pref_shouldStart := true |}
              (session_with python3))
    as (H1 & _ & H3 & _);
    [reflexivity | reflexivity | reflexivity | reflexivity | reflexivity
    | reflexivity | right; reflexivity | split; [exact H1 | exact H3]].
Defined.

Lemma initialize_bootstraps_spark_kernel_witness :
  let w := world_yielding pysparkkernel (Rejected (Error "livy unreachable")) in
  let st := fresh_preferring (Some "pysparkkernel") in
  let r := initialize livy_url uri_as_is ascii_runtime (Some connection_hup) w st in
  kernel_requestExecute w pysparkkernel
    (doNotCallChangeEndpointParams livy_url uri_as_is connection_hup) true
  = Rejected (Error "livy unreachable")
  /\ _session r.2 = Some (set_defaultKernelLoaded true (session_with pysparkkernel))
  /\ errorMessage r.2 = Some "livy unreachable".
Proof.
  intros w st r. split; [reflexivity |].
  destruct (initialize_bootstraps_spark_kernel livy_url uri_as_is ascii_runtime connection_hup
              w st {| pref_name := Some "pysparkkernel"; pref_shouldStart := true |}
              "pysparkkernel" (session_with pysparkkernel) pysparkkernel)
    as (H1 & _ & H3);
    [reflexivity | reflexivity | reflexivity | reflexivity
    | exists "py", "kernel"; reflexivity
    | reflexivity | reflexivity | reflexivity | reflexivity
    | split; [exact H1 | exact (proj1 H3)]].
Defined.
